(** * DI-SQL-Agent: metadata loading and comparison SELECT generation

    A shallow embedding of [src/metadata.py], [src/comparison_agent.py] and
    [src/cli.py], and the properties of the specification proved or refuted
    on it.

    - Text.  A Python [str] is a [string]; one [ascii] stands for one code
      point below 256.  [strip], [repr] and [in] follow CPython on that
      range.
    - Parsed JSON.  What [json.loads] returns is a [json] value.  A [dict] is
      an association list read by the first binding of a key, its keys
      iterated in that order.
    - Exceptions.  A call that may raise returns a [result]; the exceptions
      are the values of [exn].
    - Objects.  [TableMetadata.from_dict] stores the schema and the primary
      key that it finds in the document without checking them, so these two
      fields of [TableMetadata.t] hold [json] values: [JNull] or a [JStr],
      and [JNull] or a [JArr] of [JStr], when they have the types that the
      dataclass declares.
    - Files and streams.  The file system, [json.loads] and the two output
      streams are parameters: reading, parsing, writing and printing may
      raise.
    - Sets.  [align_columns] builds Python sets; they are [gset string].  *)

From Stdlib Require Import ZArith List String Ascii Bool Lia DecimalString.
From stdpp Require Import base gmap sets list strings.
Import ListNotations.

Open Scope string_scope.
Open Scope list_scope.
Open Scope Z_scope.

Set Warnings "-register-all".

(** ** Characters and strings *)

Definition nl : string := String "010" "".
Definition dquote : ascii := "034".
Definition squote : ascii := "039".
Definition backslash : ascii := "092".
Definition dq : string := String dquote "".

(** [str.isspace] on code points below 256: TAB..CR, FS..US, SPACE, NEL and
    NBSP. *)
Definition is_space (c : ascii) : bool :=
  let n := N_of_ascii c in
  ((9 <=? n) && (n <=? 13) || (28 <=? n) && (n <=? 32)
   || (n =? 133) || (n =? 160))%N.

Fixpoint lstrip (s : string) : string :=
  match s with
  | String c r => if is_space c then lstrip r else s
  | EmptyString => EmptyString
  end.

Fixpoint rstrip (s : string) : string :=
  match s with
  | EmptyString => EmptyString
  | String c r =>
      match rstrip r with
      | EmptyString => if is_space c then EmptyString else String c EmptyString
      | r' => String c r'
      end
  end.

(** [s.strip()] *)
Definition strip (s : string) : string := rstrip (lstrip s).

Fixpoint all_space (s : string) : bool :=
  match s with
  | EmptyString => true
  | String c r => is_space c && all_space r
  end.

Definition first_char (s : string) : option ascii :=
  match s with String c _ => Some c | EmptyString => None end.

Fixpoint last_char (s : string) : option ascii :=
  match s with
  | EmptyString => None
  | String c EmptyString => Some c
  | String _ r => last_char r
  end.

Definition nonempty_str (s : string) : bool :=
  match s with EmptyString => false | String _ _ => true end.

(** [needle in hay] for two strings. *)
Fixpoint contains (needle hay : string) : bool :=
  String.prefix needle hay
  || match hay with
     | EmptyString => false
     | String _ r => contains needle r
     end.

Fixpoint has_char (c : ascii) (s : string) : bool :=
  match s with
  | EmptyString => false
  | String c' r => Ascii.eqb c c' || has_char c r
  end.

Definition hex_digit (n : N) : ascii :=
  (if n <? 10 then ascii_of_N (48 + n) else ascii_of_N (87 + n))%N.

Definition hex_escape (c : ascii) : string :=
  let n := N_of_ascii c in
  String backslash (String "x" (String (hex_digit (n / 16)) (String (hex_digit (n mod 16)) ""))).

(** One character of [repr(s)] with [q] the chosen quote. *)
Definition repr_char (q c : ascii) : string :=
  let n := N_of_ascii c in
  if Ascii.eqb c q || Ascii.eqb c backslash then String backslash (String c "")
  else if (n =? 9)%N then String backslash "t"
  else if (n =? 10)%N then String backslash "n"
  else if (n =? 13)%N then String backslash "r"
  else if ((n <? 32) || (n =? 127))%N then hex_escape c
  else if (n <? 127)%N then String c ""
  else if ((n <=? 160) || (n =? 173))%N then hex_escape c
  else String c "".

Fixpoint repr_chars (q : ascii) (s : string) : string :=
  match s with
  | EmptyString => EmptyString
  | String c r => repr_char q c +:+ repr_chars q r
  end.

(** [repr(s)] of a [str]: single quotes unless the text holds a single quote
    and no double quote. *)
Definition str_repr (s : string) : string :=
  let q := if has_char squote s && negb (has_char dquote s) then dquote else squote in
  String q (repr_chars q s +:+ String q "").

(** [", ".join(items)] *)
Definition join (sep : string) (items : list string) : string :=
  String.concat sep items.

Definition mem (c : string) (l : list string) : bool :=
  existsb (String.eqb c) l.

(** [str(n)] of an [int]. *)
Definition int_str (z : Z) : string := NilZero.string_of_int (Z.to_int z).

(** [str(names)] of a list of [str]. *)
Definition list_str (names : list string) : string :=
  "[" +:+ join ", " (map str_repr names) +:+ "]".

(** ** JSON values as [json.loads] returns them *)

(** A [float] is kept by what this program can observe of it: its truth value
    and its printed form. *)
Inductive json : Type :=
| JNull
| JBool (b : bool)
| JInt (z : Z)
| JFloat (nonzero : bool) (shown : string)
| JStr (s : string)
| JArr (items : list json)
| JObj (fields : list (string * json)).

Definition dict : Type := list (string * json).

(** [bool(v)] *)
Definition truthy (v : json) : bool :=
  match v with
  | JNull => false
  | JBool b => b
  | JInt z => negb (z =? 0)
  | JFloat nz _ => nz
  | JStr s => nonempty_str s
  | JArr [] => false
  | JArr (_ :: _) => true
  | JObj [] => false
  | JObj (_ :: _) => true
  end.

(** [a or b] *)
Definition py_or (a b : json) : json := if truthy a then a else b.

Fixpoint lookup_key (d : dict) (k : string) : option json :=
  match d with
  | [] => None
  | (k', v) :: r => if String.eqb k k' then Some v else lookup_key r k
  end.

(** [k in d] *)
Definition has_key (d : dict) (k : string) : bool :=
  match lookup_key d k with Some _ => true | None => false end.

(** [d.get(k, default)] *)
Definition get_default (d : dict) (k : string) (default : json) : json :=
  match lookup_key d k with Some v => v | None => default end.

(** [d.get(k)] *)
Definition get (d : dict) (k : string) : json := get_default d k JNull.

(** The keys of a dict in insertion order. *)
Fixpoint dict_keys (seen : list string) (d : dict) : list string :=
  match d with
  | [] => []
  | (k, _) :: r => if mem k seen then dict_keys seen r else k :: dict_keys (k :: seen) r
  end.

Fixpoint chars (s : string) : list string :=
  match s with
  | EmptyString => []
  | String c r => String c "" :: chars r
  end.

(** [repr(v)] *)
Fixpoint py_repr (v : json) : string :=
  match v with
  | JNull => "None"
  | JBool true => "True"
  | JBool false => "False"
  | JInt z => int_str z
  | JFloat _ shown => shown
  | JStr s => str_repr s
  | JArr items => "[" +:+ join ", " (map py_repr items) +:+ "]"
  | JObj fields =>
      let entries :=
        (fix go (seen : list string) (d : list (string * json)) : list string :=
           match d with
           | [] => []
           | (k, x) :: r =>
               if mem k seen then go seen r
               else (str_repr k +:+ ": " +:+ py_repr x) :: go (k :: seen) r
           end) [] fields in
      "{" +:+ join ", " entries +:+ "}"
  end.

(** [str(v)] *)
Definition py_str (v : json) : string :=
  match v with
  | JStr s => s
  | _ => py_repr v
  end.

(** The items that [for x in v] visits; [None] when [v] is not iterable. *)
Definition py_iter (v : json) : option (list json) :=
  match v with
  | JArr items => Some items
  | JStr s => Some (map JStr (chars s))
  | JObj fields => Some (map JStr (dict_keys [] fields))
  | _ => None
  end.

(** [k in v]; [None] when [v] supports no membership test. *)
Definition py_in (k : string) (v : json) : option bool :=
  match v with
  | JObj fields => Some (has_key fields k)
  | JStr s => Some (contains k s)
  | JArr items =>
      Some (existsb (fun x => match x with JStr s => String.eqb k s | _ => false end) items)
  | _ => None
  end.

(** ** Exceptions and results *)

(** [msg] is what [str(e)] gives.  [JSONDecodeError] and [UnicodeError] are
    [ValueError]s; [OSError] stands for the [OSError]s other than
    [FileNotFoundError]; [OtherError] stands for an exception of any other
    class, such as [RecursionError]. *)
Inductive exn : Type :=
| FileNotFoundError (msg : string)
| OSError (msg : string)
| ValueError (msg : string)
| JSONDecodeError (msg : string)
| UnicodeError (msg : string)
| TypeError
| AttributeError
| OtherError (class : string).

Inductive result (A : Type) : Type :=
| Ok (a : A)
| Raise (e : exn).

Arguments Ok {A} a.
Arguments Raise {A} e.

Definition bind {A B : Type} (r : result A) (k : A -> result B) : result B :=
  match r with
  | Ok a => k a
  | Raise e => Raise e
  end.

Notation "'do' x <- r ; k" := (bind r (fun x => k))
  (at level 10, x name, r at level 100, k at level 200).

Fixpoint map_result {A B : Type} (f : A -> result B) (l : list A) : result (list B) :=
  match l with
  | [] => Ok []
  | a :: r => do b <- f a; do bs <- map_result f r; Ok (b :: bs)
  end.

Definition is_ok {A : Type} (r : result A) : bool :=
  match r with Ok _ => true | _ => false end.

(** What the file system holds at a path: nothing ([path.exists()] is false),
    something that [read_text] raises on, or a text. *)
Inductive file : Type :=
| Missing
| Unreadable (e : exn)
| Text (text : string).

(** ** [metadata.py] *)

Module ColumnMetadata.

(** [data_type] and [nullable] are kept as loaded; no code reads them. *)
Record t : Type := mk {
  name : string;
  data_type : json;
  nullable : json;
  is_primary_key : bool
}.

(** A column given by its name alone, the other fields at their defaults. *)
Definition named (n : string) : t := mk n JNull (JBool true) false.

Definition from_dict (c : json) : result t :=
  match c with
  | JObj d =>
      let name := py_or (get d "name") (get d "column_name") in
      if negb (truthy name) then
        Raise (ValueError "Column must have 'name' or 'column_name'")
      else
        Ok (mk (strip (py_str name))
               (py_or (get d "data_type") (get d "type"))
               (get_default d "nullable" (JBool true))
               (truthy (get_default d "is_primary_key" (JBool false))))
  | _ => Raise AttributeError
  end.

End ColumnMetadata.

(** [[c for c in items if c in names]] for a list [names] of [str]: an item
    that is not a [str] equals no name. *)
Fixpoint names_among (names : list string) (items : list json) : list string :=
  match items with
  | [] => []
  | JStr s :: rest =>
      if mem s names then s :: names_among names rest else names_among names rest
  | _ :: rest => names_among names rest
  end.

Module TableMetadata.

(** [schema_name] and [primary_key_columns] hold the values as stored. *)
Record t : Type := mk {
  table_name : string;
  schema_name : json;
  columns : list ColumnMetadata.t;
  primary_key_columns : json
}.

Definition qualified_name (self : t) : string :=
  if truthy (schema_name self) then
    py_str (schema_name self) +:+ "." +:+ table_name self
  else table_name self.

Definition column_names (self : t) : list string :=
  map ColumnMetadata.name (columns self).

Definition key_columns (self : t) : result (list string) :=
  if truthy (primary_key_columns self) then
    match py_iter (primary_key_columns self) with
    | Some items => Ok (names_among (column_names self) items)
    | None => Raise TypeError
    end
  else
    let pk_from_cols :=
      map ColumnMetadata.name (List.filter ColumnMetadata.is_primary_key (columns self)) in
    match pk_from_cols with
    | _ :: _ => Ok pk_from_cols
    | [] =>
        match column_names self with
        | _ :: _ => Ok (firstn 1 (column_names self))
        | [] => Ok []
        end
    end.

Definition from_dict (data : json) : result t :=
  match data with
  | JObj d =>
      let table_name := py_or (py_or (get d "table_name") (get d "table")) (get d "name") in
      if negb (truthy table_name) then
        Raise (ValueError "Table must have 'table_name', 'table', or 'name'")
      else
        let cols := get_default d "columns" (JArr []) in
        do cols <-
          (if negb (truthy cols) && has_key d "column_names" then
             match py_iter (get d "column_names") with
             | Some names => Ok (JArr (map (fun n => JObj [("name", n)]) names))
             | None => Raise TypeError
             end
           else Ok cols);
        match py_iter cols with
        | None => Raise TypeError
        | Some items =>
            do columns <- map_result ColumnMetadata.from_dict items;
            Ok (mk (strip (py_str table_name))
                   (py_or (get d "schema_name") (get d "schema"))
                   columns
                   (py_or (get d "primary_key") (get d "primary_key_columns")))
        end
  | _ => Raise AttributeError
  end.

Section Load.

(** The file system; [path] stands for the text of [Path(path)]. *)
Variable read_text : string -> file.

(** [json.loads] *)
Variable json_loads : string -> result json.

Definition load (path : string) : result t :=
  match read_text path with
  | Missing => Raise (FileNotFoundError ("Metadata file not found: " +:+ path))
  | Unreadable e => Raise e
  | Text text =>
      match json_loads text with
      | Raise e => Raise e
      | Ok (JArr _ as data) =>
          from_dict (JObj [("table_name", JStr "table"); ("columns", data)])
      | Ok data =>
          match py_in "columns" data with
          | None => Raise TypeError
          | Some true => from_dict data
          | Some false =>
              match py_in "column_names" data with
              | None => Raise TypeError
              | Some true => from_dict data
              | Some false =>
                  Raise (ValueError "Metadata must contain 'columns' or 'column_names'")
              end
          end
      end
  end.

End Load.

End TableMetadata.

(** ** [comparison_agent.py] *)

Definition align_columns (source target : TableMetadata.t) (use_intersection : bool)
  : list string :=
  let src_names : gset string := list_to_set (TableMetadata.column_names source) in
  let tgt_names : gset string := list_to_set (TableMetadata.column_names target) in
  if use_intersection then
    let common := src_names ∩ tgt_names in
    List.filter (fun c => bool_decide (c ∈ common)) (TableMetadata.column_names source)
  else TableMetadata.column_names source.

Definition quote_identifier (name dialect : string) : string :=
  if String.eqb dialect "ansi" || String.eqb dialect "ansi_quoted" then
    if String.eqb dialect "ansi_quoted" then dq +:+ name +:+ dq else name
  else if String.eqb dialect "sqlserver" || String.eqb dialect "mssql" then
    "[" +:+ name +:+ "]"
  else if String.eqb dialect "mysql" then
    "`" +:+ name +:+ "`"
  else name.

Definition build_select (table : TableMetadata.t) (columns : list string)
    (order_by_columns : option (list string)) (dialect : string)
    (use_quoted_identifiers : bool) : string :=
  let quote :=
    if use_quoted_identifiers then (fun c => quote_identifier c "ansi_quoted")
    else (fun c => quote_identifier c dialect) in
  let schema := py_str (TableMetadata.schema_name table) in
  let qualified := TableMetadata.qualified_name table in
  let qualified :=
    if use_quoted_identifiers && truthy (TableMetadata.schema_name table) then
      dq +:+ schema +:+ dq +:+ "." +:+ dq +:+ TableMetadata.table_name table +:+ dq
    else if String.eqb dialect "sqlserver" && truthy (TableMetadata.schema_name table) then
      "[" +:+ schema +:+ "].[" +:+ TableMetadata.table_name table +:+ "]"
    else qualified in
  let select_list := join ", " (map quote columns) in
  let sql := "SELECT " +:+ select_list +:+ nl +:+ "FROM " +:+ qualified in
  match order_by_columns with
  | Some ((_ :: _) as keys) =>
      let order_list := join ", " (map quote keys) in
      sql +:+ nl +:+ "ORDER BY " +:+ order_list
  | _ => sql
  end.

Definition generate_comparison_selects (source_metadata target_metadata : TableMetadata.t)
    (use_intersection order_by_keys : bool) (dialect : string)
    (use_quoted_identifiers : bool) : result (string * string) :=
  let columns := align_columns source_metadata target_metadata use_intersection in
  match columns with
  | [] =>
      Raise (ValueError
        ("No common columns between source and target. "
         +:+ "Source: " +:+ list_str (TableMetadata.column_names source_metadata)
         +:+ ", Target: " +:+ list_str (TableMetadata.column_names target_metadata)))
  | _ :: _ =>
      do order_cols <-
        (if order_by_keys then
           do src_keys <- TableMetadata.key_columns source_metadata;
           do tgt_keys <- TableMetadata.key_columns target_metadata;
           let chosen := match src_keys with _ :: _ => src_keys | [] => tgt_keys end in
           let order_cols := List.filter (fun k => mem k columns) chosen in
           Ok (match order_cols, columns with
               | [], _ :: _ => Some (firstn 1 columns)
               | _, _ => Some order_cols
               end)
         else Ok None);
      let source_sql :=
        build_select source_metadata columns order_cols dialect use_quoted_identifiers in
      let target_sql :=
        build_select target_metadata columns order_cols dialect use_quoted_identifiers in
      Ok (source_sql, target_sql)
  end.

(** ** The specification's words *)

Module Spec.

(** *** Column alignment *)

(** Source's names in source's order, kept when target has the name. *)
Definition shared_in_source_order (source target : TableMetadata.t) : list string :=
  List.filter (fun c => mem c (TableMetadata.column_names target))
              (TableMetadata.column_names source).

(** *** Rendering *)

(** The quoting of one identifier: the toggle wraps in double quotes, else
    the dialect decides. *)
Definition quoted_as (dialect : string) (quoted : bool) (c : string) : string :=
  if quoted then dq +:+ c +:+ dq else quote_identifier c dialect.

Definition identifier_list (dialect : string) (quoted : bool) (names : list string)
  : string :=
  join ", " (map (quoted_as dialect quoted) names).

(** The text of a statement from its three clauses. *)
Definition statement (select_list reference : string) (order_list : option string)
  : string :=
  "SELECT " +:+ select_list +:+ nl +:+ "FROM " +:+ reference
  +:+ match order_list with
      | Some keys => nl +:+ "ORDER BY " +:+ keys
      | None => ""
      end.

(** The FROM reference read with "a schema is present" as "the schema field
    is set". *)
Definition reference_if_set (table : TableMetadata.t) (dialect : string) (quoted : bool)
  : string :=
  let name := TableMetadata.table_name table in
  match TableMetadata.schema_name table with
  | JNull => name
  | stored =>
      let schema := py_str stored in
      if quoted then dq +:+ schema +:+ dq +:+ "." +:+ dq +:+ name +:+ dq
      else if String.eqb dialect "sqlserver" then "[" +:+ schema +:+ "].[" +:+ name +:+ "]"
      else schema +:+ "." +:+ name
  end.

(** The FROM reference with "a schema is present" as "the schema field is set
    to a non-empty text", and for a stored value of another type, to a value
    that is true in Python's sense. *)
Definition reference_if_nonempty (table : TableMetadata.t) (dialect : string)
    (quoted : bool) : string :=
  let name := TableMetadata.table_name table in
  let schema := py_str (TableMetadata.schema_name table) in
  if truthy (TableMetadata.schema_name table) then
    if quoted then dq +:+ schema +:+ dq +:+ "." +:+ dq +:+ name +:+ dq
    else if String.eqb dialect "sqlserver" then "[" +:+ schema +:+ "].[" +:+ name +:+ "]"
    else schema +:+ "." +:+ name
  else name.

(** The ORDER BY list as text; an absent or empty list gives no clause. *)
Definition order_text (dialect : string) (quoted : bool) (order : option (list string))
  : option string :=
  match order with
  | Some (k :: keys) => Some (identifier_list dialect quoted (k :: keys))
  | _ => None
  end.

(** *** Keys *)

(** Names of the columns flagged as primary key, in column order. *)
Definition flagged_names (table : TableMetadata.t) : list string :=
  map ColumnMetadata.name
      (List.filter ColumnMetadata.is_primary_key (TableMetadata.columns table)).

(** The single first column name if any, else nothing. *)
Definition first_name (table : TableMetadata.t) : list string :=
  match TableMetadata.column_names table with
  | n :: _ => [n]
  | [] => []
  end.

Definition flagged_or_first (table : TableMetadata.t) : list string :=
  match flagged_names table with
  | [] => first_name table
  | names => names
  end.

Definition existing (table : TableMetadata.t) (pk : list string) : list string :=
  List.filter (fun c => mem c (TableMetadata.column_names table)) pk.

(** An explicit primary key of the declared type: a list of names. *)
Definition explicit_key (pk : list string) : json := JArr (map JStr pk).

(** Precedence (a), (b), (c) with (a) taken whenever the explicit list is
    set. *)
Definition keys_if_set (table : TableMetadata.t) : list string :=
  match TableMetadata.primary_key_columns table with
  | JNull => flagged_or_first table
  | stored =>
      match py_iter stored with
      | Some items => names_among (TableMetadata.column_names table) items
      | None => []
      end
  end.

(** The ORDER BY list of the orchestrator, from the key columns of the two
    tables. *)
Definition order_keys (source_keys target_keys aligned : list string) : list string :=
  let keys :=
    match source_keys with
    | [] => target_keys
    | ks => ks
    end in
  match List.filter (fun k => mem k aligned) keys, aligned with
  | [], first :: _ => [first]
  | kept, _ => kept
  end.

(** [primary_key_columns] has no key columns: it is true in Python's sense
    and cannot be iterated (a non-zero number, or [True]). *)
Definition unusable_key (table : TableMetadata.t) : bool :=
  truthy (TableMetadata.primary_key_columns table)
  && match py_iter (TableMetadata.primary_key_columns table) with
     | Some _ => false
     | None => true
     end.


(** *** Field aliases *)

(** The value of the first candidate key the object holds. *)
Fixpoint first_present (d : dict) (keys : list string) : option json :=
  match keys with
  | [] => None
  | k :: rest =>
      match lookup_key d k with
      | Some v => Some v
      | None => first_present d rest
      end
  end.

(** The value of the first candidate key the object holds with a true
    value. *)
Fixpoint first_true (d : dict) (keys : list string) : option json :=
  match keys with
  | [] => None
  | k :: rest =>
      match lookup_key d k with
      | Some v => if truthy v then Some v else first_true d rest
      | None => first_true d rest
      end
  end.

Definition table_aliases : list string := ["table_name"; "table"; "name"].
Definition column_aliases : list string := ["name"; "column_name"].

(** The column objects that a [column_names] array stands for. *)
Definition wrapped (names : list json) : list json :=
  map (fun n => JObj [("name", n)]) names.

End Spec.

(** ** [cli.py] *)

Module Cli.

(** The parsed command line; a path stands for the text of its [Path]. *)
Record args : Type := mk_args {
  source_metadata : string;
  target_metadata : string;
  no_intersection : bool;
  no_order_by : bool;
  dialect : string;
  quoted : bool;
  output : option string
}.

(** What a run that returns leaves behind: the value returned, the text
    printed on each stream, and the file written with its text, if any.  A
    run that raises is recorded by the exception alone. *)
Record run : Type := mk_run {
  exit_code : Z;
  stdout : string;
  stderr : string;
  written : option (string * string)
}.

(** The run that has printed [Error: msg] and returned 1. *)
Definition failed (msg : string) : run :=
  mk_run 1 "" ("Error: " +:+ msg +:+ nl) None.

(** The text that both statements are reported in. *)
Definition report (source target : TableMetadata.t) (source_sql target_sql : string)
  : string :=
  "-- Source table: " +:+ TableMetadata.qualified_name source +:+ nl
  +:+ source_sql +:+ nl +:+ nl
  +:+ "-- Target table: " +:+ TableMetadata.qualified_name target +:+ nl
  +:+ target_sql +:+ nl.

Section Main.

Variable read_text : string -> file.
Variable json_loads : string -> result json.

(** [path.write_text(text)]: what it raises, [None] when the file is
    written. *)
Variable write_text : string -> string -> option exn.

(** [print(text)] and [print(text, file=sys.stderr)]: what the call raises,
    [None] when the text and a newline are printed. *)
Variable print_out : string -> option exn.
Variable print_err : string -> option exn.

(** [str(e)] when [except ValueError] catches [e]. *)
Definition value_error_text (e : exn) : option string :=
  match e with
  | ValueError msg | JSONDecodeError msg | UnicodeError msg => Some msg
  | _ => None
  end.

(** [print(f"Error: {e}", file=sys.stderr); return 1] *)
Definition report_error (msg : string) : result run :=
  match print_err ("Error: " +:+ msg) with
  | Some e => Raise e
  | None => Ok (failed msg)
  end.

(** The handlers around the two calls of [load]. *)
Definition on_load_error (e : exn) : result run :=
  match e with
  | FileNotFoundError msg => report_error msg
  | _ =>
      match value_error_text e with
      | Some msg => report_error msg
      | None => Raise e
      end
  end.

Definition main (a : args) : result run :=
  match TableMetadata.load read_text json_loads (source_metadata a) with
  | Raise e => on_load_error e
  | Ok source =>
      match TableMetadata.load read_text json_loads (target_metadata a) with
      | Raise e => on_load_error e
      | Ok target =>
          match generate_comparison_selects source target
                  (negb (no_intersection a)) (negb (no_order_by a))
                  (dialect a) (quoted a) with
          | Raise e =>
              match value_error_text e with
              | Some msg => report_error msg
              | None => Raise e
              end
          | Ok (source_sql, target_sql) =>
              let out := report source target source_sql target_sql in
              match output a with
              | Some path =>
                  match write_text path out with
                  | Some e => Raise e
                  | None =>
                      match print_err ("Wrote comparison SQL to " +:+ path) with
                      | Some e => Raise e
                      | None =>
                          Ok (mk_run 0 "" ("Wrote comparison SQL to " +:+ path +:+ nl)
                                     (Some (path, out)))
                      end
                  end
              | None =>
                  match print_out out with
                  | Some e => Raise e
                  | None => Ok (mk_run 0 (out +:+ nl) "" None)
                  end
              end
          end
      end
  end.

End Main.

End Cli.

(** ** Sample tables and documents *)

Module Sample.

Definition col (n : string) : ColumnMetadata.t := ColumnMetadata.named n.
Definition key (n : string) : ColumnMetadata.t := ColumnMetadata.mk n JNull (JBool true) true.

(** Source [id, name, email] with [id] the primary key; target [id, name]. *)
Definition users : TableMetadata.t :=
  TableMetadata.mk "users" (JStr "dbo") [key "id"; col "name"; col "email"] JNull.
Definition users_copy : TableMetadata.t :=
  TableMetadata.mk "users_copy" JNull [col "id"; col "name"] JNull.

(** Columns [a, b] against columns [c, d]. *)
Definition ab : TableMetadata.t := TableMetadata.mk "left" JNull [col "a"; col "b"] JNull.
Definition cd : TableMetadata.t := TableMetadata.mk "right" JNull [col "c"; col "d"] JNull.

(** A table whose schema field is set to the empty text. *)
Definition blank_schema : TableMetadata.t :=
  TableMetadata.mk "t" (JStr "") [col "a"] JNull.

(** A table whose explicit primary-key list is set and empty. *)
Definition empty_pk : TableMetadata.t :=
  TableMetadata.mk "t" JNull [col "a"; key "b"] (JArr []).

(** An explicit primary key naming a column the table does not have. *)
Definition orders : TableMetadata.t :=
  TableMetadata.mk "orders" (JStr "sales") [col "id"; col "sku"; col "qty"]
                   (JArr [JStr "sku"; JStr "region"; JStr "id"]).

(** An environment in which every path holds a file that parses to [doc]. *)
Definition on_disk : string -> file := fun _ => Text "".
Definition parsed_as (doc : json) : string -> result json := fun _ => Ok doc.

(** A table name and a primary key, no columns and no column names. *)
Definition pk_only : json :=
  JObj [("table_name", JStr "orders"); ("primary_key", JArr [JStr "id"])].
Definition pk_columns_only : json :=
  JObj [("name", JStr "orders"); ("primary_key_columns", JArr [JStr "id"])].

(** The first alias of the table name, and of the column name, is present and
    empty. *)
Definition blank_name_column : dict := [("name", JStr ""); ("column_name", JStr "c")].
Definition blank_first_alias : dict :=
  [("table_name", JStr ""); ("table", JStr "t"); ("name", JStr "n");
   ("columns", JArr [JObj blank_name_column])].

(** A column whose name is one space. *)
Definition blank_column : json :=
  JObj [("table_name", JStr "t");
        ("columns", JArr [JObj [("name", JStr "id")]; JObj [("name", JStr " ")]])].

(** Both [columns] and [column_names]. *)
Definition both_sources_fields : dict :=
  [("table", JStr "t");
   ("columns", JArr [JObj [("column_name", JStr "id"); ("is_primary_key", JBool true)]]);
   ("column_names", JArr [JStr "x"; JStr "y"])].
Definition columns_only_fields : dict :=
  [("table", JStr "t");
   ("columns", JArr [JObj [("column_name", JStr "id"); ("is_primary_key", JBool true)]])].
Definition empty_columns_fields : dict :=
  [("table", JStr "t"); ("columns", JArr []);
   ("column_names", JArr [JStr "x"; JStr " y "])].

Definition numeric_key : TableMetadata.t :=
  TableMetadata.mk "t" JNull [col "a"] (JInt 5).

Definition single : TableMetadata.t := TableMetadata.mk "t" JNull [col "only"] JNull.

End Sample.

(** ** Sample runs *)

Module SampleRun.

(** Two files: the users table as an object, its copy as a bare array. *)
Definition users_doc : json :=
  JObj [("table", JStr "users"); ("schema", JStr "dbo");
        ("columns", JArr [JObj [("name", JStr "id"); ("is_primary_key", JBool true)];
                          JObj [("name", JStr "email")]])].
Definition copy_doc : json := JArr [JObj [("name", JStr "id")]].

Definition disk (path : string) : file :=
  if String.eqb path "users.json" then Text "users"
  else if String.eqb path "copy.json" then Text "copy"
  else if String.eqb path "names.json" then Text "names"
  else if String.eqb path "folder" then Unreadable (OSError "Is a directory")
  else Missing.

(** Writing succeeds except under a directory that does not exist; both
    streams take every line. *)
Definition write (path text : string) : option exn :=
  if String.prefix "nodir/" path then Some (FileNotFoundError "No such file or directory")
  else None.
Definition stream (text : string) : option exn := None.

Definition parse (text : string) : result json :=
  if String.eqb text "users" then Ok users_doc
  else if String.eqb text "copy" then Ok copy_doc
  else if String.eqb text "names" then Ok (JArr [JStr "id"])
  else Raise (JSONDecodeError "Expecting value").

Definition to_stdout : Cli.args :=
  Cli.mk_args "users.json" "copy.json" false false "ansi" false None.
Definition to_file : Cli.args :=
  Cli.mk_args "users.json" "copy.json" false false "ansi" false (Some "out.sql").
Definition missing_source : Cli.args :=
  Cli.mk_args "absent.json" "copy.json" false false "ansi" false (Some "out.sql").
Definition to_missing_folder : Cli.args :=
  Cli.mk_args "users.json" "copy.json" false false "ansi" false (Some "nodir/out.sql").
Definition names_source : Cli.args :=
  Cli.mk_args "names.json" "copy.json" false false "ansi" false None.

End SampleRun.

(** * Properties *)

(** ** Helper facts *)

Lemma mem_elem_of (c : string) (l : list string) : mem c l = true <-> c ∈ l.
Proof.
  unfold mem. rewrite existsb_exists. split.
  - intros [x [Hx Heq]]. apply String.eqb_eq in Heq. subst x.
    by apply list_elem_of_In.
  - intros H. exists c. split; [by apply list_elem_of_In | apply String.eqb_refl].
Qed.

Lemma mem_bool_decide (c : string) (l : list string) : mem c l = bool_decide (c ∈ l).
Proof.
  destruct (mem c l) eqn:E.
  - symmetry. apply bool_decide_eq_true. by apply mem_elem_of.
  - symmetry. apply bool_decide_eq_false. intros H. apply mem_elem_of in H. congruence.
Qed.

(** ** Column alignment *)

(** C1. With [use_intersection = true], [align_columns] returns source's column
    names in source's order, kept exactly when the same string is one of
    target's column names; with [use_intersection = false] it returns source's
    column names unchanged, whatever the target. *)
Theorem align_columns_spec (source target other : TableMetadata.t) :
  align_columns source target true = Spec.shared_in_source_order source target
  /\ (forall c, In c (align_columns source target true)
                <-> In c (TableMetadata.column_names source)
                    /\ In c (TableMetadata.column_names target))
  /\ align_columns source target false = TableMetadata.column_names source
  /\ align_columns source other false = align_columns source target false.
Proof.
  assert (H : align_columns source target true = Spec.shared_in_source_order source target).
  { unfold align_columns, Spec.shared_in_source_order.
    apply List.filter_ext_in. intros c Hc.
    rewrite mem_bool_decide. apply bool_decide_ext.
    rewrite elem_of_intersection, !elem_of_list_to_set.
    apply list_elem_of_In in Hc. tauto. }
  split; [exact H |]. split; [| split; reflexivity].
  intros c. rewrite H. unfold Spec.shared_in_source_order.
  rewrite List.filter_In, mem_elem_of, <- !list_elem_of_In. reflexivity.
Qed.

(** ** Rendering *)

Lemma append_cons (x : ascii) (a b : string) : String x a +:+ b = String x (a +:+ b).
Proof. reflexivity. Qed.

Lemma append_assoc (a b c : string) : (a +:+ b) +:+ c = a +:+ b +:+ c.
Proof.
  induction a as [| x a IH]; [reflexivity |].
  rewrite !append_cons. by rewrite IH.
Qed.

Lemma append_empty_r (a : string) : a +:+ "" = a.
Proof.
  induction a as [| x a IH]; [reflexivity |].
  rewrite append_cons. by rewrite IH.
Qed.

Lemma quote_identifier_ansi_quoted (c : string) :
  quote_identifier c "ansi_quoted" = dq +:+ c +:+ dq.
Proof. reflexivity. Qed.

(** Every statement that [build_select] returns has the three-clause layout,
    with the identifiers quoted one by one and the FROM reference of
    [Spec.reference_if_nonempty]. *)
Lemma build_select_layout (table : TableMetadata.t) (cols : list string)
    (order : option (list string)) (dialect : string) (quoted : bool) :
  build_select table cols order dialect quoted =
  Spec.statement (Spec.identifier_list dialect quoted cols)
                 (Spec.reference_if_nonempty table dialect quoted)
                 (Spec.order_text dialect quoted order).
Proof.
  unfold build_select, Spec.statement, Spec.identifier_list, Spec.order_text,
    Spec.reference_if_nonempty, TableMetadata.qualified_name.
  destruct (truthy (TableMetadata.schema_name table)), quoted,
    (String.eqb dialect "sqlserver"), order as [[| k keys] |];
    cbn [andb]; cbv iota zeta; rewrite ?append_empty_r, ?append_assoc; reflexivity.
Qed.

(** C5 as stated, refuted: with the quoted-identifiers toggle set and the
    schema field set to the empty text, [build_select] writes the bare table
    name after FROM, not the pair of quoted names. *)
Lemma blank_schema_reference :
  build_select Sample.blank_schema ["a"] None "ansi" true
  = "SELECT " +:+ dq +:+ "a" +:+ dq +:+ nl +:+ "FROM t"
  /\ build_select Sample.blank_schema ["a"] None "ansi" true
     <> Spec.statement (Spec.identifier_list "ansi" true ["a"])
                       (Spec.reference_if_set Sample.blank_schema "ansi" true) None.
Proof.
  split; [reflexivity |].
  apply String.eqb_neq. vm_compute. reflexivity.
Qed.

(** C5, amended.  The FROM reference of [build_select] is: the two names
    double-quoted and joined by a dot when the toggle is set and the schema is
    set and not empty; both names in square brackets when the toggle is unset,
    the dialect is sqlserver and the schema is set and not empty; the plain
    [schema.table] when the toggle is unset, the dialect is another one and the
    schema is set and not empty; and the bare table name whenever the schema
    is unset or empty, whatever the toggle and the dialect.  The column and
    ORDER BY lists are quoted identifier by identifier.  A stored schema that
    is no text counts as set and not empty when it is true in Python's sense,
    and is written as [str] prints it. *)
Theorem build_select_from_reference (table : TableMetadata.t) (cols : list string)
    (order : option (list string)) (dialect : string) (quoted : bool) :
  let name := TableMetadata.table_name table in
  let rendered reference :=
    Spec.statement (Spec.identifier_list dialect quoted cols) reference
                   (Spec.order_text dialect quoted order) in
  (forall schema, TableMetadata.schema_name table = JStr schema -> schema <> "" ->
     quoted = true ->
     build_select table cols order dialect quoted
     = rendered (dq +:+ schema +:+ dq +:+ "." +:+ dq +:+ name +:+ dq))
  /\ (forall schema, TableMetadata.schema_name table = JStr schema -> schema <> "" ->
        quoted = false -> dialect = "sqlserver" ->
        build_select table cols order dialect quoted
        = rendered ("[" +:+ schema +:+ "].[" +:+ name +:+ "]"))
  /\ (forall schema, TableMetadata.schema_name table = JStr schema -> schema <> "" ->
        quoted = false -> dialect <> "sqlserver" ->
        build_select table cols order dialect quoted
        = rendered (schema +:+ "." +:+ name))
  /\ (TableMetadata.schema_name table = JNull \/ TableMetadata.schema_name table = JStr "" ->
        build_select table cols order dialect quoted = rendered name)
  /\ build_select table cols order dialect quoted
     = rendered (Spec.reference_if_nonempty table dialect quoted).
Proof.
  intros name rendered. subst rendered. cbv beta.
  rewrite build_select_layout. unfold Spec.reference_if_nonempty. fold name.
  split; [| split; [| split; [| split]]].
  - intros schema Hs Hne ->. rewrite Hs. destruct schema; [congruence | reflexivity].
  - intros schema Hs Hne -> ->. rewrite Hs. destruct schema; [congruence | reflexivity].
  - intros schema Hs Hne -> Hd. rewrite Hs. apply String.eqb_neq in Hd. rewrite Hd.
    destruct schema; [congruence | reflexivity].
  - intros [Hs | Hs]; rewrite Hs; reflexivity.
  - reflexivity.
Qed.

Lemma build_select_from_reference_witness :
  build_select Sample.users ["id"; "name"] (Some ["id"]) "mysql" true
  = Spec.statement (Spec.identifier_list "mysql" true ["id"; "name"])
      (dq +:+ "dbo" +:+ dq +:+ "." +:+ dq +:+ "users" +:+ dq)
      (Spec.order_text "mysql" true (Some ["id"]))
  /\ build_select Sample.users ["id"; "name"] None "sqlserver" false
     = Spec.statement (Spec.identifier_list "sqlserver" false ["id"; "name"])
         "[dbo].[users]" None
  /\ build_select Sample.users ["id"; "name"] None "mysql" false
     = Spec.statement (Spec.identifier_list "mysql" false ["id"; "name"]) "dbo.users" None
  /\ build_select Sample.blank_schema ["a"] None "sqlserver" true
     = Spec.statement (Spec.identifier_list "sqlserver" true ["a"]) "t" None.
Proof.
  split; [| split; [| split]].
  - apply (proj1 (build_select_from_reference Sample.users ["id"; "name"] (Some ["id"])
                    "mysql" true) "dbo"); [reflexivity | discriminate | reflexivity].
  - apply (proj1 (proj2 (build_select_from_reference Sample.users ["id"; "name"] None
                    "sqlserver" false)) "dbo");
      [reflexivity | discriminate | reflexivity | reflexivity].
  - apply (proj1 (proj2 (proj2 (build_select_from_reference Sample.users ["id"; "name"] None
                    "mysql" false))) "dbo");
      [reflexivity | discriminate | reflexivity | discriminate].
  - apply (proj1 (proj2 (proj2 (proj2 (build_select_from_reference Sample.blank_schema
                    ["a"] None "sqlserver" true))))).
    right. reflexivity.
Defined.

(** ** The orchestrator *)

Lemma order_keys_nonempty (source_keys target_keys aligned : list string) :
  aligned <> [] -> Spec.order_keys source_keys target_keys aligned <> [].
Proof.
  unfold Spec.order_keys. intros Ha.
  destruct (List.filter _ _) as [| k kept]; [| discriminate].
  destruct aligned; [congruence | discriminate].
Qed.

(** [key_columns] raises exactly on a primary key that is true and cannot be
    iterated, and what it raises is [TypeError]. *)
Lemma key_columns_unusable (table : TableMetadata.t) :
  if Spec.unusable_key table then TableMetadata.key_columns table = Raise TypeError
  else exists keys, TableMetadata.key_columns table = Ok keys.
Proof.
  unfold Spec.unusable_key, TableMetadata.key_columns.
  destruct (truthy (TableMetadata.primary_key_columns table)); cbn [andb].
  - destruct (py_iter _); eauto.
  - destruct (map ColumnMetadata.name _); [| eauto].
    destruct (TableMetadata.column_names table); eauto.
Qed.


(** What a successful call returns: both tables rendered by [build_select] on
    the aligned columns and one ORDER BY list, made of the key columns of the
    two tables when it is requested. *)
Lemma generate_ok_inv (source target : TableMetadata.t) (use_intersection order_by_keys : bool)
    (dialect : string) (quoted : bool) (a b : string) :
  generate_comparison_selects source target use_intersection order_by_keys dialect quoted
  = Ok (a, b) ->
  let aligned := align_columns source target use_intersection in
  aligned <> []
  /\ exists order,
       (if order_by_keys then
          exists source_keys target_keys,
            TableMetadata.key_columns source = Ok source_keys
            /\ TableMetadata.key_columns target = Ok target_keys
            /\ order = Some (Spec.order_keys source_keys target_keys aligned)
        else order = None)
       /\ a = build_select source aligned order dialect quoted
       /\ b = build_select target aligned order dialect quoted.
Proof.
  unfold generate_comparison_selects. cbv zeta.
  destruct (align_columns source target use_intersection) as [| c cs] eqn:Ha;
    [discriminate |].
  unfold Spec.order_keys.
  destruct order_by_keys.
  - destruct (TableMetadata.key_columns source) as [ks | e]; [| discriminate].
    destruct (TableMetadata.key_columns target) as [kt | e]; [| discriminate].
    cbn [bind]. intros H. split; [discriminate |].
    eexists. split; [exists ks, kt; split; [reflexivity |]; split; reflexivity |].
    destruct ks as [| k ks].
    + destruct (List.filter (fun k => mem k (c :: cs)) kt);
        injection H as <- <-; split; reflexivity.
    + destruct (List.filter (fun k0 => mem k0 (c :: cs)) (k :: ks));
        injection H as <- <-; split; reflexivity.
  - cbn [bind]. intros [= <- <-]. split; [discriminate |].
    exists None. split; [reflexivity |]. split; reflexivity.
Qed.

(** C6. The two statements of a successful call have the same SELECT list and
    the same ORDER BY clause (or none, both): they differ in the FROM
    reference only, and are equal when the references are. *)
Theorem generated_statements_symmetric (source target : TableMetadata.t)
    (use_intersection order_by_keys : bool) (dialect : string) (quoted : bool)
    (a b : string) :
  generate_comparison_selects source target use_intersection order_by_keys dialect quoted
  = Ok (a, b) ->
  exists order_by : option string,
    let select_list :=
      Spec.identifier_list dialect quoted (align_columns source target use_intersection) in
    a = Spec.statement select_list (Spec.reference_if_nonempty source dialect quoted) order_by
    /\ b = Spec.statement select_list (Spec.reference_if_nonempty target dialect quoted) order_by
    /\ (Spec.reference_if_nonempty source dialect quoted
        = Spec.reference_if_nonempty target dialect quoted -> a = b).
Proof.
  intros H. apply generate_ok_inv in H. cbv zeta in H.
  destruct H as (_ & order & _ & -> & ->).
  rewrite !build_select_layout.
  eexists. cbv zeta. split; [reflexivity |]. split; [reflexivity |].
  intros ->. reflexivity.
Qed.

(** C2. When ORDER BY is requested, both statements of a successful call end
    in an ORDER BY clause whose list is the quoted names of: source's key
    columns, or target's when source has none, kept when they are aligned
    columns, in the key list's order; or the first aligned column alone when
    none is kept.  When ORDER BY is not requested, both statements end after
    the FROM clause. *)
Theorem generated_order_by (source target : TableMetadata.t) (use_intersection : bool)
    (dialect : string) (quoted : bool) (a b : string) :
  let aligned := align_columns source target use_intersection in
  let select_list := Spec.identifier_list dialect quoted aligned in
  (generate_comparison_selects source target use_intersection true dialect quoted
   = Ok (a, b) ->
   exists source_keys target_keys,
     TableMetadata.key_columns source = Ok source_keys
     /\ TableMetadata.key_columns target = Ok target_keys
     /\ let keys := Spec.order_keys source_keys target_keys aligned in
        keys <> []
        /\ a = Spec.statement select_list (Spec.reference_if_nonempty source dialect quoted)
                 (Some (Spec.identifier_list dialect quoted keys))
        /\ b = Spec.statement select_list (Spec.reference_if_nonempty target dialect quoted)
                 (Some (Spec.identifier_list dialect quoted keys)))
  /\ (generate_comparison_selects source target use_intersection false dialect quoted
      = Ok (a, b) ->
      a = Spec.statement select_list (Spec.reference_if_nonempty source dialect quoted) None
      /\ b = Spec.statement select_list (Spec.reference_if_nonempty target dialect quoted) None).
Proof.
  intros aligned select_list. split; intros H.
  - apply generate_ok_inv in H. cbv zeta in H.
    destruct H as (Hne & order & (ks & kt & Hs & Ht & ->) & -> & ->).
    exists ks, kt. split; [exact Hs |]. split; [exact Ht |]. cbv zeta.
    pose proof (order_keys_nonempty ks kt _ Hne) as Hk.
    split; [exact Hk |].
    rewrite !build_select_layout. unfold Spec.order_text.
    fold aligned in Hk |- *.
    destruct (Spec.order_keys ks kt aligned) as [| k keys]; [congruence |].
    split; reflexivity.
  - apply generate_ok_inv in H. cbv zeta in H. destruct H as (_ & order & -> & -> & ->).
    rewrite !build_select_layout. split; reflexivity.
Qed.

Lemma generated_statements_symmetric_witness :
  exists a b order_by,
    generate_comparison_selects Sample.users Sample.users_copy true true "mysql" false
    = Ok (a, b)
    /\ a = Spec.statement "`id`, `name`" "dbo.users" order_by
    /\ b = Spec.statement "`id`, `name`" "users_copy" order_by.
Proof.
  destruct (generated_statements_symmetric Sample.users Sample.users_copy true true
              "mysql" false _ _ eq_refl) as (order_by & Ha & Hb & _).
  eexists _, _, order_by. split; [reflexivity |]. split; [exact Ha | exact Hb].
Defined.

Lemma generated_order_by_witness :
  (exists a b,
     generate_comparison_selects Sample.orders Sample.users_copy true true "ansi" false
     = Ok (a, b)
     /\ exists source_keys target_keys,
          TableMetadata.key_columns Sample.orders = Ok source_keys
          /\ TableMetadata.key_columns Sample.users_copy = Ok target_keys
          /\ Spec.order_keys source_keys target_keys ["id"] <> []
          /\ a = Spec.statement "id" "sales.orders"
                   (Some (Spec.identifier_list "ansi" false
                            (Spec.order_keys source_keys target_keys ["id"])))
          /\ b = Spec.statement "id" "users_copy"
                   (Some (Spec.identifier_list "ansi" false
                            (Spec.order_keys source_keys target_keys ["id"]))))
  /\ (exists a b,
        generate_comparison_selects Sample.orders Sample.users_copy true false "ansi" false
        = Ok (a, b)
        /\ a = Spec.statement "id" "sales.orders" None
        /\ b = Spec.statement "id" "users_copy" None).
Proof.
  split.
  - eexists _, _. split; [reflexivity |].
    exact (proj1 (generated_order_by Sample.orders Sample.users_copy true "ansi" false
                    _ _) eq_refl).
  - eexists _, _. split; [reflexivity |].
    exact (proj2 (generated_order_by Sample.orders Sample.users_copy true "ansi" false
                    _ _) eq_refl).
Defined.




(** ** Key columns *)

Lemma names_among_explicit (names pk : list string) :
  names_among names (map JStr pk) = List.filter (fun c => mem c names) pk.
Proof.
  induction pk as [| c pk IH]; [reflexivity |].
  cbn [map names_among List.filter]. rewrite IH. reflexivity.
Qed.

(** C4 as stated, refuted: an explicit primary-key list that is set and empty
    does not give the empty key; [key_columns] goes on to the flagged
    columns. *)
Lemma empty_pk_key_columns :
  TableMetadata.key_columns Sample.empty_pk = Ok ["b"]
  /\ Spec.keys_if_set Sample.empty_pk = []
  /\ TableMetadata.key_columns Sample.empty_pk <> Ok (Spec.keys_if_set Sample.empty_pk).
Proof. split; [reflexivity |]. split; [reflexivity | discriminate]. Qed.

(** C4, amended.  [key_columns] is: (a) when [primary_key_columns] is set and
    not empty, its entries that are column names, in its order; else (b) the
    names of the columns flagged as primary key, in column order, when there
    is one; else (c) the first column name alone if there is a column, else
    nothing.  A table of one column with no explicit primary key has that
    column's name as its key.  For a stored primary key of any type: a value
    that is false in Python's sense counts as not set, a true value that can
    be iterated gives its items that are column names, and a true value that
    cannot be iterated makes [key_columns] raise [TypeError]. *)
Theorem key_columns_precedence (table : TableMetadata.t) :
  (forall pk, TableMetadata.primary_key_columns table = Spec.explicit_key pk -> pk <> [] ->
     TableMetadata.key_columns table = Ok (Spec.existing table pk))
  /\ (TableMetadata.primary_key_columns table = JNull
      \/ TableMetadata.primary_key_columns table = Spec.explicit_key [] ->
      Spec.flagged_names table <> [] ->
      TableMetadata.key_columns table = Ok (Spec.flagged_names table))
  /\ (TableMetadata.primary_key_columns table = JNull
      \/ TableMetadata.primary_key_columns table = Spec.explicit_key [] ->
      Spec.flagged_names table = [] ->
      TableMetadata.key_columns table = Ok (Spec.first_name table))
  /\ (forall c, TableMetadata.primary_key_columns table = JNull ->
        TableMetadata.columns table = [c] ->
        TableMetadata.key_columns table = Ok [ColumnMetadata.name c])
  /\ (truthy (TableMetadata.primary_key_columns table) = false ->
      TableMetadata.key_columns table = Ok (Spec.flagged_or_first table))
  /\ (forall items,
        truthy (TableMetadata.primary_key_columns table) = true ->
        py_iter (TableMetadata.primary_key_columns table) = Some items ->
        TableMetadata.key_columns table
        = Ok (names_among (TableMetadata.column_names table) items))
  /\ (truthy (TableMetadata.primary_key_columns table) = true ->
      py_iter (TableMetadata.primary_key_columns table) = None ->
      TableMetadata.key_columns table = Raise TypeError).
Proof.
  unfold TableMetadata.key_columns, Spec.existing, Spec.flagged_or_first,
    Spec.flagged_names, Spec.first_name, Spec.explicit_key.
  split; [| split; [| split; [| split; [| split; [| split]]]]].
  - intros pk -> Hne. destruct pk as [| c pk]; [congruence |].
    change (truthy (JArr (map JStr (c :: pk)))) with true. cbv iota.
    cbn [py_iter]. by rewrite names_among_explicit.
  - intros [-> | ->] Hf; cbn [truthy map];
      destruct (map ColumnMetadata.name _) eqn:E; congruence.
  - intros [-> | ->] ->; cbn [truthy map];
      destruct (TableMetadata.column_names table); reflexivity.
  - intros c -> Hc. unfold TableMetadata.column_names. rewrite Hc. cbn.
    destruct (ColumnMetadata.is_primary_key c); reflexivity.
  - intros ->. destruct (map ColumnMetadata.name _); [| reflexivity].
    destruct (TableMetadata.column_names table); reflexivity.
  - intros items -> ->. reflexivity.
  - intros -> ->. reflexivity.
Qed.

Lemma key_columns_precedence_witness :
  TableMetadata.key_columns Sample.orders = Ok ["sku"; "id"]
  /\ TableMetadata.key_columns Sample.users = Ok ["id"]
  /\ TableMetadata.key_columns Sample.users_copy = Ok ["id"]
  /\ TableMetadata.key_columns Sample.single = Ok ["only"]
  /\ TableMetadata.key_columns Sample.empty_pk = Ok ["b"]
  /\ TableMetadata.key_columns Sample.orders = Ok ["sku"; "id"]
  /\ TableMetadata.key_columns Sample.numeric_key = Raise TypeError.
Proof.
  split; [| split; [| split; [| split; [| split; [| split]]]]].
  - apply (proj1 (key_columns_precedence Sample.orders) ["sku"; "region"; "id"]);
      [reflexivity | discriminate].
  - apply (proj1 (proj2 (key_columns_precedence Sample.users)));
      [left; reflexivity | discriminate].
  - apply (proj1 (proj2 (proj2 (key_columns_precedence Sample.users_copy))));
      [left; reflexivity | reflexivity].
  - apply (proj1 (proj2 (proj2 (proj2 (key_columns_precedence Sample.single))))
             (Sample.col "only")); reflexivity.
  - apply (proj1 (proj2 (proj2 (proj2 (proj2 (key_columns_precedence Sample.empty_pk)))))).
    reflexivity.
  - apply (proj1 (proj2 (proj2 (proj2 (proj2 (proj2
             (key_columns_precedence Sample.orders))))))
             [JStr "sku"; JStr "region"; JStr "id"]); reflexivity.
  - apply (proj2 (proj2 (proj2 (proj2 (proj2 (proj2
             (key_columns_precedence Sample.numeric_key)))))));
      reflexivity.
Defined.

(** ** Loading *)

(** C7 as stated, refuted: a document with a table name and a primary-key
    array but neither [columns] nor [column_names] does not load. *)
Lemma primary_key_alone_is_rejected :
  TableMetadata.load Sample.on_disk (Sample.parsed_as Sample.pk_only) "orders.json"
  = Raise (ValueError "Metadata must contain 'columns' or 'column_names'")
  /\ TableMetadata.load Sample.on_disk (Sample.parsed_as Sample.pk_columns_only) "orders.json"
     = Raise (ValueError "Metadata must contain 'columns' or 'column_names'")
  /\ ~ (exists table,
          TableMetadata.load Sample.on_disk (Sample.parsed_as Sample.pk_only) "orders.json"
          = Ok table).
Proof.
  split; [reflexivity |]. split; [reflexivity |]. intros [table H]. discriminate H.
Qed.

(** C7, amended.  Loading a JSON object that has neither a [columns] nor a
    [column_names] field fails with the malformed-input error, whatever its
    other fields: a primary-key array is not a columns source. *)
Theorem load_requires_columns (read_text : string -> file)
    (json_loads : string -> result json) (path text : string) (fields : dict) :
  read_text path = Text text ->
  json_loads text = Ok (JObj fields) ->
  has_key fields "columns" = false ->
  has_key fields "column_names" = false ->
  TableMetadata.load read_text json_loads path
  = Raise (ValueError "Metadata must contain 'columns' or 'column_names'").
Proof.
  intros Hr Hj Hc Hn. unfold TableMetadata.load. rewrite Hr, Hj. simpl.
  rewrite Hc, Hn. reflexivity.
Qed.

Lemma load_requires_columns_witness :
  TableMetadata.load Sample.on_disk (Sample.parsed_as Sample.pk_only) "orders.json"
  = Raise (ValueError "Metadata must contain 'columns' or 'column_names'").
Proof.
  apply (load_requires_columns Sample.on_disk (Sample.parsed_as Sample.pk_only)
           "orders.json" ""
           [("table_name", JStr "orders"); ("primary_key", JArr [JStr "id"])]);
    reflexivity.
Defined.

(** The [or] chains over [d.get] are ordered look-ups of the first true
    value. *)
Lemma table_name_or_chain (d : dict) :
  let v := py_or (py_or (get d "table_name") (get d "table")) (get d "name") in
  Spec.first_true d Spec.table_aliases = if truthy v then Some v else None.
Proof.
  unfold py_or, get, get_default, Spec.table_aliases. cbn [Spec.first_true].
  destruct (lookup_key d "table_name") as [a |];
    destruct (lookup_key d "table") as [b |];
    destruct (lookup_key d "name") as [c |];
    repeat (cbn [truthy]; cbv iota;
            match goal with
            | H : truthy ?x = _ |- context [truthy ?x] => rewrite H
            | |- context [truthy ?x] => is_var x; destruct (truthy x) eqn:?
            end);
    cbn [truthy]; cbv iota; congruence.
Qed.

Lemma column_name_or_chain (d : dict) :
  let v := py_or (get d "name") (get d "column_name") in
  Spec.first_true d Spec.column_aliases = if truthy v then Some v else None.
Proof.
  unfold py_or, get, get_default, Spec.column_aliases. cbn [Spec.first_true].
  destruct (lookup_key d "name") as [a |];
    destruct (lookup_key d "column_name") as [b |];
    repeat (cbn [truthy]; cbv iota;
            match goal with
            | H : truthy ?x = _ |- context [truthy ?x] => rewrite H
            | |- context [truthy ?x] => is_var x; destruct (truthy x) eqn:?
            end);
    cbn [truthy]; cbv iota; congruence.
Qed.

Lemma column_from_dict_ok (d : dict) (column : ColumnMetadata.t) :
  ColumnMetadata.from_dict (JObj d) = Ok column ->
  exists v, Spec.first_true d Spec.column_aliases = Some v
            /\ truthy v = true
            /\ ColumnMetadata.name column = strip (py_str v).
Proof.
  unfold ColumnMetadata.from_dict. rewrite (column_name_or_chain d).
  destruct (truthy _) eqn:E; simpl; [| discriminate].
  intros [= <-]. eexists. split; [reflexivity |]. split; [exact E | reflexivity].
Qed.

Lemma column_from_dict_nameless (d : dict) :
  Spec.first_true d Spec.column_aliases = None ->
  ColumnMetadata.from_dict (JObj d)
  = Raise (ValueError "Column must have 'name' or 'column_name'").
Proof.
  unfold ColumnMetadata.from_dict. rewrite (column_name_or_chain d).
  destruct (truthy _); simpl; [discriminate | reflexivity].
Qed.

Lemma table_from_dict_ok (d : dict) (table : TableMetadata.t) :
  TableMetadata.from_dict (JObj d) = Ok table ->
  exists v, Spec.first_true d Spec.table_aliases = Some v
            /\ truthy v = true
            /\ TableMetadata.table_name table = strip (py_str v).
Proof.
  unfold TableMetadata.from_dict. rewrite (table_name_or_chain d).
  destruct (truthy _) eqn:E; simpl; [| discriminate].
  intros H. eexists. split; [reflexivity |]. split; [exact E |].
  unfold bind in H. repeat (case_match; try discriminate).
  all: injection H as <-; reflexivity.
Qed.

Lemma table_from_dict_nameless (d : dict) :
  Spec.first_true d Spec.table_aliases = None ->
  TableMetadata.from_dict (JObj d)
  = Raise (ValueError "Table must have 'table_name', 'table', or 'name'").
Proof.
  unfold TableMetadata.from_dict. rewrite (table_name_or_chain d).
  destruct (truthy _); simpl; [discriminate | reflexivity].
Qed.

(** C8 as stated, refuted: a first alias that is present with an empty text
    does not win; the next alias gives the table name, and the column
    name. *)
Lemma blank_first_alias_is_skipped :
  Spec.first_present Sample.blank_first_alias Spec.table_aliases = Some (JStr "")
  /\ Spec.first_present Sample.blank_name_column Spec.column_aliases = Some (JStr "")
  /\ TableMetadata.from_dict (JObj Sample.blank_first_alias)
     = Ok (TableMetadata.mk "t" JNull [ColumnMetadata.named "c"] JNull)
  /\ ColumnMetadata.from_dict (JObj Sample.blank_name_column) = Ok (ColumnMetadata.named "c")
  /\ ~ (forall table v,
          TableMetadata.from_dict (JObj Sample.blank_first_alias) = Ok table ->
          Spec.first_present Sample.blank_first_alias Spec.table_aliases = Some v ->
          TableMetadata.table_name table = strip (py_str v)).
Proof.
  split; [reflexivity |]. split; [reflexivity |]. split; [reflexivity |].
  split; [reflexivity |].
  intros H. specialize (H _ _ eq_refl eq_refl). discriminate H.
Qed.

(** C8, amended.  Aliases are resolved as an ordered look-up of the first
    candidate field whose value is true in Python's sense (for a text: not
    empty): the table name is the trimmed text of the first such value among
    [table_name], [table], [name], and a column's name is the trimmed text of
    the first such value among [name], [column_name].  A field that is present
    with an empty text is passed over; when no candidate has a true value,
    loading fails with the malformed-input error. *)
Theorem aliases_first_true_wins (d : dict) :
  (forall table, TableMetadata.from_dict (JObj d) = Ok table ->
     exists v, Spec.first_true d Spec.table_aliases = Some v
               /\ TableMetadata.table_name table = strip (py_str v))
  /\ (forall v, Spec.first_true d Spec.column_aliases = Some v ->
        exists column, ColumnMetadata.from_dict (JObj d) = Ok column
                       /\ ColumnMetadata.name column = strip (py_str v))
  /\ (Spec.first_true d Spec.table_aliases = None ->
      TableMetadata.from_dict (JObj d)
      = Raise (ValueError "Table must have 'table_name', 'table', or 'name'"))
  /\ (Spec.first_true d Spec.column_aliases = None ->
      ColumnMetadata.from_dict (JObj d)
      = Raise (ValueError "Column must have 'name' or 'column_name'")).
Proof.
  split; [| split; [| split]].
  - intros table H. apply table_from_dict_ok in H. destruct H as (v & Hv & _ & Hn).
    by exists v.
  - intros v Hv. rewrite (column_name_or_chain d) in Hv.
    unfold ColumnMetadata.from_dict.
    destruct (truthy _) eqn:E; [| discriminate]. injection Hv as <-.
    simpl. eexists. split; reflexivity.
  - apply table_from_dict_nameless.
  - apply column_from_dict_nameless.
Qed.

Lemma aliases_first_true_wins_witness :
  (exists v, Spec.first_true Sample.blank_first_alias Spec.table_aliases = Some v
             /\ "t" = strip (py_str v))
  /\ (exists column,
        ColumnMetadata.from_dict (JObj Sample.blank_name_column) = Ok column
        /\ ColumnMetadata.name column = "c")
  /\ TableMetadata.from_dict (JObj [("table_name", JStr ""); ("columns", JArr [])])
     = Raise (ValueError "Table must have 'table_name', 'table', or 'name'")
  /\ ColumnMetadata.from_dict (JObj [("name", JStr ""); ("type", JStr "int")])
     = Raise (ValueError "Column must have 'name' or 'column_name'").
Proof.
  split; [| split; [| split]].
  - apply (proj1 (aliases_first_true_wins Sample.blank_first_alias)
             (TableMetadata.mk "t" JNull [ColumnMetadata.named "c"] JNull)).
    reflexivity.
  - apply (proj1 (proj2 (aliases_first_true_wins Sample.blank_name_column)) (JStr "c")).
    reflexivity.
  - apply (proj1 (proj2 (proj2 (aliases_first_true_wins
             [("table_name", JStr ""); ("columns", JArr [])])))).
    reflexivity.
  - apply (proj2 (proj2 (proj2 (aliases_first_true_wins
             [("name", JStr ""); ("type", JStr "int")])))).
    reflexivity.
Defined.

(** ** Column names *)

Lemma lstrip_first (s : string) (c : ascii) :
  first_char (lstrip s) = Some c -> is_space c = false.
Proof.
  induction s as [| x s IH]; simpl; [discriminate |].
  destruct (is_space x) eqn:E; [exact IH |].
  simpl. intros [= <-]. exact E.
Qed.

Lemma rstrip_first (s : string) (c : ascii) :
  first_char (rstrip s) = Some c -> first_char s = Some c.
Proof.
  destruct s as [| x s]; simpl; [discriminate |].
  destruct (rstrip s); [destruct (is_space x); [discriminate |] |]; simpl; congruence.
Qed.

Lemma rstrip_last (s : string) (c : ascii) :
  last_char (rstrip s) = Some c -> is_space c = false.
Proof.
  induction s as [| x s IH]; simpl; [discriminate |].
  destruct (rstrip s) as [| y r] eqn:E.
  - destruct (is_space x) eqn:Ex; simpl; [discriminate |]. intros [= <-]. exact Ex.
  - exact IH.
Qed.

Lemma lstrip_empty (s : string) : lstrip s = "" <-> all_space s = true.
Proof.
  induction s as [| x s IH]; simpl; [tauto |].
  destruct (is_space x); simpl; [exact IH |]. split; discriminate.
Qed.

Lemma rstrip_empty (s : string) : rstrip s = "" <-> all_space s = true.
Proof.
  induction s as [| x s IH]; simpl; [tauto |].
  destruct (rstrip s) as [| y r].
  - destruct (is_space x); simpl; [tauto |]. split; discriminate.
  - split; [discriminate |]. intros H. apply andb_true_iff in H.
    destruct H as [_ H]. apply IH in H. discriminate H.
Qed.

Lemma all_space_lstrip (s : string) : all_space (lstrip s) = all_space s.
Proof.
  induction s as [| x s IH]; simpl; [reflexivity |].
  destruct (is_space x) eqn:E; simpl; [exact IH | by rewrite E].
Qed.

(** [strip] leaves no whitespace at either end, and gives the empty text
    exactly for a text of whitespace only. *)
Lemma strip_borders (s : string) (c : ascii) :
  first_char (strip s) = Some c \/ last_char (strip s) = Some c -> is_space c = false.
Proof.
  unfold strip. intros [H | H].
  - apply rstrip_first in H. by apply lstrip_first in H.
  - by apply rstrip_last in H.
Qed.

Lemma strip_empty (s : string) : strip s = "" <-> all_space s = true.
Proof. unfold strip. rewrite rstrip_empty, all_space_lstrip. reflexivity. Qed.

(** A loaded column's name is the trimmed text of its name field: no
    whitespace at either end, and empty exactly when that text is whitespace
    only. *)
Lemma loaded_column_name (d : dict) (column : ColumnMetadata.t) :
  ColumnMetadata.from_dict (JObj d) = Ok column ->
  exists v, Spec.first_true d Spec.column_aliases = Some v
            /\ ColumnMetadata.name column = strip (py_str v)
            /\ (forall c, first_char (ColumnMetadata.name column) = Some c
                          \/ last_char (ColumnMetadata.name column) = Some c ->
                          is_space c = false)
            /\ (ColumnMetadata.name column = "" <-> all_space (py_str v) = true).
Proof.
  intros H. apply column_from_dict_ok in H. destruct H as (v & Hv & _ & Hn).
  exists v. rewrite Hn. split; [exact Hv |]. split; [reflexivity |].
  split; [apply strip_borders | apply strip_empty].
Qed.

Lemma nameless_entry_raises (items : list json) (c : dict) :
  In (JObj c) items ->
  Spec.first_true c Spec.column_aliases = None ->
  exists e, map_result ColumnMetadata.from_dict items = Raise e.
Proof.
  intros Hin Hc. induction items as [| x items IH]; [contradiction |].
  cbn [map_result]. destruct Hin as [-> | Hin].
  - rewrite (column_from_dict_nameless c Hc). cbn [bind]. eauto.
  - destruct (ColumnMetadata.from_dict x) as [col | e] eqn:E; cbn [bind].
    + destruct (IH Hin) as [e ->]. cbn [bind]. eauto.
    + eauto.
Qed.

(** A column entry that has no true value under either name alias makes the
    loading of the table raise. *)
Lemma nameless_column_fails_loading (d : dict) (items : list json) (c : dict) :
  lookup_key d "columns" = Some (JArr items) ->
  In (JObj c) items ->
  Spec.first_true c Spec.column_aliases = None ->
  exists e, TableMetadata.from_dict (JObj d) = Raise e.
Proof.
  intros Hd Hin Hc. unfold TableMetadata.from_dict, get, has_key, get_default.
  rewrite Hd. destruct (negb (truthy (py_or _ _))); [eauto |].
  destruct items as [| x items]; [contradiction |].
  cbn [truthy negb andb bind py_iter].
  destruct (nameless_entry_raises (x :: items) c Hin Hc) as [e ->].
  cbn [bind]. eauto.
Qed.

(** C9, at the failing input.  A column whose name field is a single space
    passes the emptiness check, which runs before the trimming, and is loaded
    with the empty name. *)
Theorem whitespace_column_name_loads_empty :
  TableMetadata.load Sample.on_disk (Sample.parsed_as Sample.blank_column) "t.json"
  = Ok (TableMetadata.mk "t" JNull [ColumnMetadata.named "id"; ColumnMetadata.named ""] JNull)
  /\ ColumnMetadata.from_dict (JObj [("name", JStr " ")]) = Ok (ColumnMetadata.named "").
Proof. split; reflexivity. Qed.

(** ** The two column sources *)

Lemma lookup_key_cons_ne (k k' : string) (v : json) (d : dict) :
  k <> k' -> lookup_key ((k', v) :: d) k = lookup_key d k.
Proof. intros H. simpl. apply String.eqb_neq in H. by rewrite H. Qed.

(** A column object holding a name alone. *)
Lemma wrapped_column (n : json) :
  ColumnMetadata.from_dict (JObj [("name", n)])
  = if truthy n then Ok (ColumnMetadata.named (strip (py_str n)))
    else Raise (ValueError "Column must have 'name' or 'column_name'").
Proof.
  unfold ColumnMetadata.from_dict, get, get_default, py_or. simpl.
  destruct (truthy n) eqn:E; cbv iota; [rewrite E |]; reflexivity.
Qed.

Lemma wrapped_columns (names : list json) (cols : list ColumnMetadata.t) :
  map_result ColumnMetadata.from_dict (Spec.wrapped names) = Ok cols ->
  cols = map (fun n => ColumnMetadata.named (strip (py_str n))) names
  /\ forallb truthy names = true.
Proof.
  revert cols. induction names as [| n names IH]; intros cols.
  - intros [= <-]. split; reflexivity.
  - unfold Spec.wrapped. cbn [map map_result forallb]. fold (Spec.wrapped names).
    rewrite wrapped_column. destruct (truthy n); cbn [bind andb]; [| discriminate].
    destruct (map_result ColumnMetadata.from_dict (Spec.wrapped names)) as [l | e] eqn:E;
      cbn [bind]; try discriminate.
    intros [= <-]. destruct (IH l eq_refl) as [-> ->]. split; reflexivity.
Qed.

(** C10.  When [columns] is a non-empty array, the outcome of loading does
    not depend on [column_names]: two documents that agree on every other
    field load alike.  When [columns] is the empty array and [column_names] is
    an array, loading goes as if [columns] held one object per name with that
    name alone, and a table that loads has one column per name, named by the
    trimmed name and with every other column field at its default. *)
Theorem columns_before_column_names (d : dict) :
  (forall d' c cs,
     lookup_key d "columns" = Some (JArr (c :: cs)) ->
     (forall k, k <> "column_names" -> lookup_key d' k = lookup_key d k) ->
     TableMetadata.from_dict (JObj d') = TableMetadata.from_dict (JObj d)
     /\ forall table,
          TableMetadata.from_dict (JObj d) = Ok table ->
          map_result ColumnMetadata.from_dict (c :: cs) = Ok (TableMetadata.columns table))
  /\ (forall names,
        lookup_key d "columns" = Some (JArr []) ->
        lookup_key d "column_names" = Some (JArr names) ->
        TableMetadata.from_dict (JObj d)
        = TableMetadata.from_dict (JObj (("columns", JArr (Spec.wrapped names)) :: d))
        /\ forall table,
             TableMetadata.from_dict (JObj d) = Ok table ->
             TableMetadata.columns table
             = map (fun n => ColumnMetadata.named (strip (py_str n))) names).
Proof.
  split.
  - intros d' c cs Hc Hk. split.
    + unfold TableMetadata.from_dict, get, has_key, get_default.
      rewrite (Hk "table_name"), (Hk "table"), (Hk "name"), (Hk "columns"),
        (Hk "schema_name"), (Hk "schema"), (Hk "primary_key"), (Hk "primary_key_columns")
        by discriminate.
      rewrite Hc. reflexivity.
    + intros table. unfold TableMetadata.from_dict, get, has_key, get_default.
      rewrite Hc. cbn [truthy negb andb py_iter].
      destruct (negb (truthy _)); [discriminate |].
      cbn [bind py_iter].
      destruct (map_result ColumnMetadata.from_dict (c :: cs)) as [l | e];
        cbn [bind]; try discriminate.
      repeat (case_match; try discriminate); intros [= <-]; reflexivity.
  - intros names Hc Hn. split.
    + unfold TableMetadata.from_dict, get, has_key, get_default.
      rewrite (lookup_key_cons_ne "table_name"), (lookup_key_cons_ne "table"),
        (lookup_key_cons_ne "name"), (lookup_key_cons_ne "column_names"),
        (lookup_key_cons_ne "schema_name"), (lookup_key_cons_ne "schema"),
        (lookup_key_cons_ne "primary_key"), (lookup_key_cons_ne "primary_key_columns")
        by discriminate.
      change (lookup_key (("columns", JArr (Spec.wrapped names)) :: d) "columns")
        with (Some (JArr (Spec.wrapped names))).
      rewrite Hc, Hn.
      destruct names as [| n names]; reflexivity.
    + intros table. unfold TableMetadata.from_dict, get, has_key, get_default.
      rewrite Hc, Hn. cbn [truthy negb andb py_iter].
      destruct (negb (truthy _)); [discriminate |].
      cbn [bind py_iter]. fold (Spec.wrapped names).
      destruct (map_result ColumnMetadata.from_dict (Spec.wrapped names)) as [l | e] eqn:E;
        cbn [bind]; try discriminate.
      apply wrapped_columns in E. destruct E as [-> _].
      repeat (case_match; try discriminate); intros [= <-]; reflexivity.
Qed.

Lemma columns_before_column_names_witness :
  TableMetadata.from_dict (JObj Sample.both_sources_fields)
  = TableMetadata.from_dict (JObj Sample.columns_only_fields)
  /\ TableMetadata.from_dict (JObj Sample.empty_columns_fields)
     = Ok (TableMetadata.mk "t" JNull [ColumnMetadata.named "x"; ColumnMetadata.named "y"] JNull).
Proof.
  split.
  - apply (proj1 (columns_before_column_names Sample.columns_only_fields)
             Sample.both_sources_fields
             (JObj [("column_name", JStr "id"); ("is_primary_key", JBool true)]) []).
    + reflexivity.
    + intros k Hk. unfold Sample.both_sources_fields, Sample.columns_only_fields.
      cbn [lookup_key]. apply String.eqb_neq in Hk. rewrite Hk. reflexivity.
  - destruct (proj2 (columns_before_column_names Sample.empty_columns_fields)
                [JStr "x"; JStr " y "] eq_refl eq_refl) as [-> _].
    reflexivity.
Defined.

(** * Further properties of the code *)

(** ** Keys *)

Lemma mem_In (c : string) (l : list string) : mem c l = true <-> In c l.
Proof. rewrite mem_elem_of. apply list_elem_of_In. Qed.

Lemma names_among_In (names : list string) (items : list json) (s : string) :
  In s (names_among names items) <-> In (JStr s) items /\ In s names.
Proof.
  induction items as [| x items IH]; [cbn; tauto |].
  destruct x; cbn [names_among];
    try (rewrite IH; cbn [In]; split; [tauto | intros [[H | H] Hn]; [discriminate H | tauto]]).
  destruct (mem s0 names) eqn:E; cbn [In]; rewrite IH.
  - apply mem_In in E. split.
    + intros [<- | [H Hn]]; tauto.
    + intros [[[= <-] | H] Hn]; tauto.
  - split; [tauto |]. intros [[[= <-] | H] Hn]; [| tauto].
    apply mem_In in Hn. congruence.
Qed.

Lemma key_columns_false_key (table : TableMetadata.t) :
  truthy (TableMetadata.primary_key_columns table) = false ->
  TableMetadata.key_columns table = Ok (Spec.flagged_or_first table).
Proof.
  unfold TableMetadata.key_columns, Spec.flagged_or_first, Spec.flagged_names,
    Spec.first_name.
  intros ->. destruct (map ColumnMetadata.name _); [| reflexivity].
  destruct (TableMetadata.column_names table); reflexivity.
Qed.

Lemma fallback_keys_in_columns (table : TableMetadata.t) (c : string) :
  In c (Spec.flagged_or_first table) -> In c (TableMetadata.column_names table).
Proof.
  unfold Spec.flagged_or_first, Spec.flagged_names, Spec.first_name.
  destruct (map ColumnMetadata.name (List.filter _ _)) as [| k ks] eqn:E.
  - destruct (TableMetadata.column_names table) as [| n names]; [contradiction |].
    intros [<- | []]. left. reflexivity.
  - rewrite <- E. unfold TableMetadata.column_names. rewrite !in_map_iff.
    intros (x & <- & Hx). apply List.filter_In in Hx. exists x. tauto.
Qed.

Lemma key_columns_within (table : TableMetadata.t) (keys : list string) (c : string) :
  TableMetadata.key_columns table = Ok keys ->
  In c keys -> In c (TableMetadata.column_names table).
Proof.
  destruct (truthy (TableMetadata.primary_key_columns table)) eqn:E.
  - unfold TableMetadata.key_columns. rewrite E.
    destruct (py_iter _) as [items |]; [| discriminate].
    intros [= <-]. rewrite names_among_In. tauto.
  - rewrite (key_columns_false_key table E). intros [= <-].
    apply fallback_keys_in_columns.
Qed.

(** X1. Every key column is a column of the table: an entry of the explicit
    primary key that names no column never reaches the key. *)
Theorem key_columns_are_columns (table : TableMetadata.t) (keys : list string) :
  TableMetadata.key_columns table = Ok keys ->
  (forall c, In c keys -> In c (TableMetadata.column_names table))
  /\ (forall c, ~ In c (TableMetadata.column_names table) -> ~ In c keys).
Proof.
  intros H. split.
  - intros c. destruct (truthy (TableMetadata.primary_key_columns table)) eqn:E.
    + revert H. unfold TableMetadata.key_columns. rewrite E.
      destruct (py_iter _) as [items |]; [| discriminate].
      intros [= <-]. rewrite names_among_In. tauto.
    + rewrite (key_columns_false_key table E) in H. injection H as <-.
      apply fallback_keys_in_columns.
  - intros c Hn Hk. apply Hn. by eapply key_columns_within.
Qed.

Lemma key_columns_are_columns_witness :
  In "sku" (TableMetadata.column_names Sample.orders)
  /\ ~ In "region" ["sku"; "id"].
Proof.
  split.
  - apply (proj1 (key_columns_are_columns Sample.orders ["sku"; "id"] eq_refl) "sku").
    left. reflexivity.
  - apply (proj2 (key_columns_are_columns Sample.orders ["sku"; "id"] eq_refl) "region").
    cbn. intuition discriminate.
Defined.

Lemma fallback_keys_empty (table : TableMetadata.t) :
  Spec.flagged_or_first table = [] <-> TableMetadata.column_names table = [].
Proof.
  unfold Spec.flagged_or_first, Spec.flagged_names, Spec.first_name,
    TableMetadata.column_names.
  destruct (TableMetadata.columns table) as [| col cols]; [cbn; tauto |].
  cbn [map]. split; [| discriminate].
  destruct (map ColumnMetadata.name (List.filter _ _)); discriminate.
Qed.

Lemma names_among_empty (names : list string) (items : list json) :
  names_among names items = []
  <-> forall s, In (JStr s) items -> ~ In s names.
Proof.
  split.
  - intros H s Hs Hn.
    assert (Hin : In s (names_among names items)) by (apply names_among_In; tauto).
    rewrite H in Hin. contradiction.
  - intros H. destruct (names_among names items) as [| k ks] eqn:E; [reflexivity |].
    assert (Hk : In k (names_among names items)) by (rewrite E; left; reflexivity).
    apply names_among_In in Hk. destruct Hk as [Hi Hn]. exfalso. exact (H k Hi Hn).
Qed.

(** X2. [key_columns] returns the empty list exactly when the table has no
    column and its stored primary key can be used, or when the stored primary
    key is true in Python's sense, can be iterated and none of its items is a
    column name: in the latter case neither the flagged columns nor the first
    column is used.  For an explicit list of names that is: the list is not
    empty and names none of the columns. *)
Theorem key_columns_empty_iff (table : TableMetadata.t) :
  (TableMetadata.key_columns table = Ok []
   <-> (TableMetadata.column_names table = [] /\ Spec.unusable_key table = false)
       \/ exists items,
            truthy (TableMetadata.primary_key_columns table) = true
            /\ py_iter (TableMetadata.primary_key_columns table) = Some items
            /\ forall s, In (JStr s) items -> ~ In s (TableMetadata.column_names table))
  /\ (forall pk,
        TableMetadata.primary_key_columns table = Spec.explicit_key pk ->
        (TableMetadata.key_columns table = Ok []
         <-> TableMetadata.column_names table = []
             \/ (pk <> []
                 /\ forall c, In c pk -> ~ In c (TableMetadata.column_names table))))
  /\ (TableMetadata.primary_key_columns table = JNull ->
      (TableMetadata.key_columns table = Ok [] <-> TableMetadata.column_names table = [])).
Proof.
  assert (Hgen :
    TableMetadata.key_columns table = Ok []
    <-> (TableMetadata.column_names table = [] /\ Spec.unusable_key table = false)
        \/ exists items,
             truthy (TableMetadata.primary_key_columns table) = true
             /\ py_iter (TableMetadata.primary_key_columns table) = Some items
             /\ forall s, In (JStr s) items -> ~ In s (TableMetadata.column_names table)).
  { unfold Spec.unusable_key.
    destruct (truthy (TableMetadata.primary_key_columns table)) eqn:E.
    - unfold TableMetadata.key_columns. rewrite E. cbn [andb].
      destruct (py_iter (TableMetadata.primary_key_columns table)) as [items |] eqn:Ei.
      + split.
        * intros [= H]. right. exists items. split; [reflexivity |].
          split; [reflexivity |]. by apply names_among_empty.
        * intros [[Hn _] | (items' & _ & [= <-] & H)]; f_equal; apply names_among_empty.
          -- intros s _. rewrite Hn. intros [].
          -- exact H.
      + split; [discriminate |].
        intros [[_ H] | (items' & _ & H & _)]; discriminate H.
    - rewrite (key_columns_false_key table E). cbn [andb]. split.
      + intros [= H]. left. split; [by apply fallback_keys_empty | reflexivity].
      + intros [[Hn _] | (items & H & _)]; [| discriminate H].
        f_equal. by apply fallback_keys_empty. }
  split; [exact Hgen |]. split.
  - intros pk Hpk. rewrite Hgen. unfold Spec.unusable_key. rewrite Hpk.
    unfold Spec.explicit_key. cbn [py_iter]. rewrite andb_false_r. split.
    + intros [[Hn _] | (items & Ht & [= <-] & H)]; [by left |]. right. split.
      * intros ->. discriminate Ht.
      * intros c Hc. apply H. apply in_map_iff. by exists c.
    + intros [Hn | [Hne H]]; [by left |]. right. exists (map JStr pk).
      split; [by destruct pk |]. split; [reflexivity |].
      intros s Hs. apply in_map_iff in Hs. destruct Hs as (c & [= ->] & Hc). by apply H.
  - intros Hpk. rewrite Hgen. unfold Spec.unusable_key. rewrite Hpk. cbn.
    split; [| by left]. intros [[Hn _] | (items & Ht & _)]; [exact Hn | discriminate Ht].
Qed.

Lemma key_columns_empty_iff_witness :
  (TableMetadata.key_columns Sample.orders = Ok []
   <-> TableMetadata.column_names Sample.orders = []
       \/ (["sku"; "region"; "id"] <> []
           /\ forall c, In c ["sku"; "region"; "id"] ->
                        ~ In c (TableMetadata.column_names Sample.orders)))
  /\ (TableMetadata.key_columns Sample.users = Ok []
      <-> TableMetadata.column_names Sample.users = []).
Proof.
  split.
  - apply (proj1 (proj2 (key_columns_empty_iff Sample.orders)) ["sku"; "region"; "id"]).
    reflexivity.
  - apply (proj2 (proj2 (key_columns_empty_iff Sample.users))). reflexivity.
Defined.

(** ** Alignment *)

Lemma align_intersection_filter (source target : TableMetadata.t) :
  align_columns source target true
  = List.filter (fun c => mem c (TableMetadata.column_names target))
                (TableMetadata.column_names source).
Proof.
  unfold align_columns. apply List.filter_ext_in. intros c Hc.
  rewrite mem_bool_decide. apply bool_decide_ext.
  rewrite elem_of_intersection, !elem_of_list_to_set.
  apply list_elem_of_In in Hc. tauto.
Qed.

Lemma align_intersection_In (source target : TableMetadata.t) (c : string) :
  In c (align_columns source target true)
  <-> In c (TableMetadata.column_names source) /\ In c (TableMetadata.column_names target).
Proof. rewrite align_intersection_filter, List.filter_In, mem_In. reflexivity. Qed.

Lemma filter_sublist {A : Type} (f : A -> bool) (l : list A) : sublist (List.filter f l) l.
Proof.
  induction l as [| x l IH]; cbn [List.filter]; [constructor |].
  destruct (f x); by constructor.
Qed.

Lemma filter_all {A : Type} (f : A -> bool) (l : list A) :
  (forall x, In x l -> f x = true) -> List.filter f l = l.
Proof.
  induction l as [| x l IH]; intros H; cbn [List.filter]; [reflexivity |].
  rewrite (H x) by (left; reflexivity). f_equal. apply IH.
  intros y Hy. apply H. right. exact Hy.
Qed.

(** X3. In either mode the aligned columns are source's column names with
    some left out: their order is source's, no name occurs more often than in
    source, and names that are distinct in source stay distinct. *)
Theorem aligned_columns_within_source (source target : TableMetadata.t)
    (use_intersection : bool) :
  let aligned := align_columns source target use_intersection in
  sublist aligned (TableMetadata.column_names source)
  /\ (length aligned <= length (TableMetadata.column_names source))%nat
  /\ (NoDup (TableMetadata.column_names source) -> NoDup aligned).
Proof.
  intros aligned.
  assert (H : sublist aligned (TableMetadata.column_names source)).
  { subst aligned. destruct use_intersection.
    - rewrite align_intersection_filter. apply filter_sublist.
    - reflexivity. }
  split; [exact H |]. split; [by apply sublist_length |].
  intros Hnd. by eapply sublist_NoDup.
Qed.

Lemma aligned_columns_within_source_witness :
  NoDup (align_columns Sample.users Sample.users_copy true).
Proof.
  apply (proj2 (proj2 (aligned_columns_within_source Sample.users Sample.users_copy true))).
  apply (bool_decide_unpack _). vm_compute. exact I.
Defined.

(** X4. Which names are aligned does not depend on which table is the source:
    with the intersection, a name is aligned from source to target exactly
    when it is aligned from target to source.  Only the order may differ. *)
Theorem aligned_names_symmetric (source target : TableMetadata.t) (c : string) :
  In c (align_columns source target true) <-> In c (align_columns target source true).
Proof. rewrite !align_intersection_In. tauto. Qed.

(** A table aligned with itself keeps all its columns. *)
Lemma align_self (table : TableMetadata.t) (use_intersection : bool) :
  align_columns table table use_intersection = TableMetadata.column_names table.
Proof.
  destruct use_intersection; [| reflexivity].
  rewrite align_intersection_filter. apply filter_all.
  intros c Hc. by apply mem_In.
Qed.

(** ** Generation *)

Lemma key_columns_of_own_columns (table : TableMetadata.t) (keys : list string) :
  TableMetadata.key_columns table = Ok keys ->
  List.filter (fun k => mem k (TableMetadata.column_names table)) keys = keys.
Proof.
  intros H. apply filter_all. intros c Hc. apply mem_In.
  by eapply key_columns_within.
Qed.

(** X5. A table that has a column is compared with itself as follows.  Without
    ORDER BY the call succeeds; with ORDER BY it succeeds when [key_columns]
    can be computed, and raises what [key_columns] raises when it cannot (a
    stored primary key that is a non-zero number or [True]).  On success the
    two statements are the same text, select every column in the table's
    order, and order by the table's key columns, or by the first column when
    it has no key. *)
Theorem self_comparison (table : TableMetadata.t) (use_intersection : bool)
    (dialect : string) (quoted : bool) :
  TableMetadata.column_names table <> [] ->
  let names := TableMetadata.column_names table in
  let sql order := build_select table names order dialect quoted in
  generate_comparison_selects table table use_intersection false dialect quoted
  = Ok (sql None, sql None)
  /\ (forall keys,
        TableMetadata.key_columns table = Ok keys ->
        let order := Some match keys with [] => firstn 1 names | ks => ks end in
        generate_comparison_selects table table use_intersection true dialect quoted
        = Ok (sql order, sql order))
  /\ (forall e,
        TableMetadata.key_columns table = Raise e ->
        generate_comparison_selects table table use_intersection true dialect quoted
        = Raise e).
Proof.
  intros Hne. cbv zeta.
  unfold generate_comparison_selects. cbv zeta. rewrite align_self.
  split; [| split].
  - destruct (TableMetadata.column_names table); [congruence | reflexivity].
  - intros keys Hk. rewrite Hk. cbn [bind].
    assert (Hf : List.filter (fun k => mem k (TableMetadata.column_names table))
                             match keys with [] => keys | _ :: _ => keys end = keys).
    { destruct keys; [reflexivity |]. by apply key_columns_of_own_columns. }
    rewrite Hf.
    destruct (TableMetadata.column_names table) as [| n rest]; [congruence |].
    destruct keys; reflexivity.
  - intros e He. rewrite He.
    destruct (TableMetadata.column_names table); [congruence | reflexivity].
Qed.

Lemma self_comparison_witness :
  (exists sql,
     generate_comparison_selects Sample.orders Sample.orders true true "mysql" false
     = Ok (sql, sql))
  /\ generate_comparison_selects Sample.numeric_key Sample.numeric_key true true
       "mysql" false = Raise TypeError.
Proof.
  split.
  - eexists.
    apply (proj1 (proj2 (self_comparison Sample.orders true "mysql" false
                           ltac:(discriminate))) ["sku"; "id"]).
    reflexivity.
  - apply (proj2 (proj2 (self_comparison Sample.numeric_key true "mysql" false
                           ltac:(discriminate))) TypeError).
    reflexivity.
Defined.

Lemma is_ok_generate (source target : TableMetadata.t) (use_intersection order_by_keys : bool)
    (dialect : string) (quoted : bool) :
  is_ok (generate_comparison_selects source target use_intersection order_by_keys
           dialect quoted) = true
  <-> align_columns source target use_intersection <> []
      /\ (order_by_keys = false
          \/ (Spec.unusable_key source = false /\ Spec.unusable_key target = false)).
Proof.
  unfold generate_comparison_selects. cbv zeta.
  destruct (align_columns source target use_intersection); cbn [is_ok].
  - split; [discriminate | intros [H _]; congruence].
  - destruct order_by_keys.
    + pose proof (key_columns_unusable source) as Hs.
      pose proof (key_columns_unusable target) as Ht.
      destruct (Spec.unusable_key source).
      * rewrite Hs. cbn. split; [discriminate |].
        intros [_ [H | [H _]]]; discriminate H.
      * destruct Hs as [ks ->]. cbn [bind]. destruct (Spec.unusable_key target).
        -- rewrite Ht. cbn. split; [discriminate |].
           intros [_ [H | [_ H]]]; discriminate H.
        -- destruct Ht as [kt ->]. cbn. split; [| reflexivity].
           intros _. split; [discriminate | by right].
    + cbn. split; [| reflexivity]. intros _. split; [discriminate | by left].
Qed.

(** X6. With the intersection switched off, generation succeeds exactly when
    the source has a column and, if ORDER BY is requested, the stored primary
    key of neither table is a true value that cannot be iterated; the columns
    of the target play no part.  Both statements then select all of source's
    columns, also those the target lacks. *)
Theorem all_source_columns_mode (source target : TableMetadata.t) (order_by_keys : bool)
    (dialect : string) (quoted : bool) :
  let outcome :=
    generate_comparison_selects source target false order_by_keys dialect quoted in
  (is_ok outcome = true
   <-> TableMetadata.column_names source <> []
       /\ (order_by_keys = false
           \/ (Spec.unusable_key source = false /\ Spec.unusable_key target = false)))
  /\ (forall a b, outcome = Ok (a, b) ->
        exists order,
          a = build_select source (TableMetadata.column_names source) order dialect quoted
          /\ b = build_select target (TableMetadata.column_names source) order dialect quoted).
Proof.
  intros outcome. subst outcome. split.
  - apply is_ok_generate.
  - intros a b H. apply generate_ok_inv in H. cbv zeta in H.
    destruct H as (_ & order & _ & -> & ->).
    exists order. split; reflexivity.
Qed.

Lemma all_source_columns_mode_witness :
  exists order,
    build_select Sample.ab ["a"; "b"] None "ansi" false
    = build_select Sample.ab (TableMetadata.column_names Sample.ab) order "ansi" false
    /\ build_select Sample.cd ["a"; "b"] None "ansi" false
       = build_select Sample.cd (TableMetadata.column_names Sample.ab) order "ansi" false.
Proof.
  apply (proj2 (all_source_columns_mode Sample.ab Sample.cd false "ansi" false)).
  reflexivity.
Defined.

(** X7. With the intersection, generation succeeds exactly when some column
    name of the source is, as the same string, a column name of the target
    and, if ORDER BY is requested, the stored primary key of neither table is
    a true value that cannot be iterated. *)
Theorem intersection_mode_succeeds_iff (source target : TableMetadata.t)
    (order_by_keys : bool) (dialect : string) (quoted : bool) :
  is_ok (generate_comparison_selects source target true order_by_keys dialect quoted) = true
  <-> (exists c, In c (TableMetadata.column_names source)
                 /\ In c (TableMetadata.column_names target))
      /\ (order_by_keys = false
          \/ (Spec.unusable_key source = false /\ Spec.unusable_key target = false)).
Proof.
  rewrite is_ok_generate.
  assert (H : align_columns source target true <> []
              <-> exists c, In c (TableMetadata.column_names source)
                            /\ In c (TableMetadata.column_names target)).
  { split.
    - intros H. destruct (align_columns source target true) as [| c cs] eqn:E; [congruence |].
      exists c. apply align_intersection_In. rewrite E. left. reflexivity.
    - intros (c & Hc) E. apply align_intersection_In in Hc. rewrite E in Hc. contradiction. }
  rewrite H. reflexivity.
Qed.

Lemma order_keys_aligned (source_keys target_keys aligned : list string) (k : string) :
  In k (Spec.order_keys source_keys target_keys aligned) -> In k aligned.
Proof.
  unfold Spec.order_keys.
  destruct (List.filter _ _) as [| x kept] eqn:E.
  - destruct aligned as [| first rest]; [contradiction |].
    intros [<- | []]. left. reflexivity.
  - rewrite <- E. rewrite List.filter_In, mem_In. tauto.
Qed.

(** X8. When ORDER BY is requested, a successful call orders both statements
    by the same non-empty list of keys, and every key is one of the selected
    columns: no statement is ordered by a column it does not select. *)
Theorem order_by_selected_columns (source target : TableMetadata.t) (use_intersection : bool)
    (dialect : string) (quoted : bool) (a b : string) :
  generate_comparison_selects source target use_intersection true dialect quoted
  = Ok (a, b) ->
  let aligned := align_columns source target use_intersection in
  exists keys,
    keys <> []
    /\ (forall k, In k keys -> In k aligned)
    /\ a = build_select source aligned (Some keys) dialect quoted
    /\ b = build_select target aligned (Some keys) dialect quoted.
Proof.
  intros H. apply generate_ok_inv in H. cbv zeta in H.
  destruct H as (Hne & order & (ks & kt & _ & _ & ->) & -> & ->).
  cbv zeta.
  exists (Spec.order_keys ks kt (align_columns source target use_intersection)).
  split; [by apply order_keys_nonempty |].
  split; [apply order_keys_aligned |]. split; reflexivity.
Qed.

Lemma order_by_selected_columns_witness :
  exists keys,
    keys <> []
    /\ (forall k, In k keys -> In k (align_columns Sample.orders Sample.users_copy true))
    /\ build_select Sample.orders ["id"] (Some ["id"]) "ansi" false
       = build_select Sample.orders (align_columns Sample.orders Sample.users_copy true)
           (Some keys) "ansi" false
    /\ build_select Sample.users_copy ["id"] (Some ["id"]) "ansi" false
       = build_select Sample.users_copy (align_columns Sample.orders Sample.users_copy true)
           (Some keys) "ansi" false.
Proof.
  apply (order_by_selected_columns Sample.orders Sample.users_copy true "ansi" false).
  reflexivity.
Defined.

(** ** Dialects and quoting *)

Lemma build_select_quoted_any_dialect (table : TableMetadata.t) (cols : list string)
    (order : option (list string)) (dialect other : string) :
  build_select table cols order dialect true = build_select table cols order other true.
Proof.
  unfold build_select, TableMetadata.qualified_name.
  destruct (truthy (TableMetadata.schema_name table)); [reflexivity |].
  destruct (String.eqb dialect "sqlserver"), (String.eqb other "sqlserver"); reflexivity.
Qed.

(** X9. With the quoted-identifiers toggle set, the dialect has no effect: a
    call gives the same outcome, text for text, under any two dialects. *)
Theorem quoted_toggle_overrides_dialect (source target : TableMetadata.t)
    (use_intersection order_by_keys : bool) (dialect other : string) :
  generate_comparison_selects source target use_intersection order_by_keys dialect true
  = generate_comparison_selects source target use_intersection order_by_keys other true.
Proof.
  unfold generate_comparison_selects. cbv zeta.
  destruct (align_columns source target use_intersection) as [| c cs]; [reflexivity |].
  destruct (if order_by_keys then _ else _) as [order | e]; [| reflexivity].
  cbn [bind].
  rewrite (build_select_quoted_any_dialect source _ _ dialect other).
  rewrite (build_select_quoted_any_dialect target _ _ dialect other).
  reflexivity.
Qed.

Lemma quote_identifier_unknown (name dialect : string) :
  dialect <> "ansi_quoted" -> dialect <> "sqlserver" -> dialect <> "mssql" ->
  dialect <> "mysql" ->
  quote_identifier name dialect = name.
Proof.
  intros H1 H2 H3 H4. unfold quote_identifier.
  apply String.eqb_neq in H1, H2, H3, H4. rewrite H1, H2, H3, H4.
  destruct (String.eqb dialect "ansi"); reflexivity.
Qed.

(** X10. A dialect that is none of [ansi_quoted], [sqlserver], [mssql] and
    [mysql] is no error and is treated as [ansi]: without the toggle, every
    identifier and table reference is written unquoted. *)
Theorem unknown_dialect_is_ansi (table : TableMetadata.t) (cols : list string)
    (order : option (list string)) (dialect : string) :
  dialect <> "ansi_quoted" -> dialect <> "sqlserver" -> dialect <> "mssql" ->
  dialect <> "mysql" ->
  build_select table cols order dialect false = build_select table cols order "ansi" false
  /\ build_select table cols order dialect false
     = Spec.statement (join ", " cols) (TableMetadata.qualified_name table)
         match order with
         | Some (k :: keys) => Some (join ", " (k :: keys))
         | _ => None
         end.
Proof.
  intros H1 H2 H3 H4.
  assert (Hq : forall l, map (fun c => quote_identifier c dialect) l = l).
  { intros l. induction l as [| c l IH]; [reflexivity |].
    cbn [map]. rewrite IH, quote_identifier_unknown by assumption. reflexivity. }
  assert (Ha : forall l, map (fun c => quote_identifier c "ansi") l = l).
  { intros l. induction l as [| c l IH]; [reflexivity |].
    cbn [map]. rewrite IH. reflexivity. }
  unfold build_select, Spec.statement, TableMetadata.qualified_name. cbv zeta.
  apply String.eqb_neq in H2. rewrite H2, !Hq, !Ha.
  change (String.eqb "ansi" "sqlserver") with false.
  destruct (truthy (TableMetadata.schema_name table)), order as [[| k keys] |];
    cbn [andb]; cbv iota;
    rewrite ?Hq, ?Ha, ?append_empty_r, ?append_assoc; split; reflexivity.
Qed.

Lemma unknown_dialect_is_ansi_witness :
  build_select Sample.users ["id"; "name"] (Some ["id"]) "postgres" false
  = build_select Sample.users ["id"; "name"] (Some ["id"]) "ansi" false.
Proof.
  apply (unknown_dialect_is_ansi Sample.users ["id"; "name"] (Some ["id"]) "postgres");
    discriminate.
Defined.

Lemma append_length (a b : string) :
  String.length (a +:+ b) = (String.length a + String.length b)%nat.
Proof.
  induction a as [| x a IH]; [reflexivity |].
  rewrite append_cons. cbn [String.length]. by rewrite IH.
Qed.

Lemma append_cancel_r (x y b : string) : x +:+ b = y +:+ b -> x = y.
Proof.
  revert y. induction x as [| c x IH]; intros [| d y] H.
  - reflexivity.
  - apply (f_equal String.length) in H. rewrite !append_length in H.
    cbn [String.length] in H. lia.
  - apply (f_equal String.length) in H. rewrite !append_length in H.
    cbn [String.length] in H. lia.
  - rewrite !append_cons in H. injection H as -> H. f_equal. by apply IH.
Qed.

Lemma append_cancel_l (a x y : string) : a +:+ x = a +:+ y -> x = y.
Proof.
  induction a as [| c a IH]; [trivial |].
  rewrite !append_cons. intros [= H]. by apply IH.
Qed.

Lemma wrapped_cancel (a b x y : string) : a +:+ x +:+ b = a +:+ y +:+ b -> x = y.
Proof. intros H. apply append_cancel_l in H. by apply append_cancel_r in H. Qed.

(** X11. Under any one dialect, quoting keeps names apart: two identifiers
    are quoted to the same text only when they are the same name. *)
Theorem quote_identifier_injective (dialect n1 n2 : string) :
  quote_identifier n1 dialect = quote_identifier n2 dialect -> n1 = n2.
Proof.
  unfold quote_identifier.
  destruct (String.eqb dialect "ansi" || String.eqb dialect "ansi_quoted").
  - destruct (String.eqb dialect "ansi_quoted"); [apply wrapped_cancel | trivial].
  - destruct (String.eqb dialect "sqlserver" || String.eqb dialect "mssql");
      [apply wrapped_cancel |].
    destruct (String.eqb dialect "mysql"); [apply wrapped_cancel | trivial].
Qed.

Lemma quote_identifier_injective_witness : "id" = "id".
Proof. apply (quote_identifier_injective "mysql" "id" "id"). reflexivity. Defined.

(** X12. Without the toggle and under any dialect but [sqlserver], the FROM
    clause names the table by its [qualified_name], unquoted, while each
    column is quoted as the dialect says; so under [mysql] the columns are in
    backticks and the table reference is not. *)
Theorem from_clause_is_qualified_name (table : TableMetadata.t) (cols : list string)
    (order : option (list string)) (dialect : string) :
  dialect <> "sqlserver" ->
  build_select table cols order dialect false
  = Spec.statement (join ", " (map (fun c => quote_identifier c dialect) cols))
      (TableMetadata.qualified_name table)
      match order with
      | Some (k :: keys) =>
          Some (join ", " (map (fun c => quote_identifier c dialect) (k :: keys)))
      | _ => None
      end
  /\ (dialect = "mysql" ->
      map (fun c => quote_identifier c dialect) cols
      = map (fun c => "`" +:+ c +:+ "`") cols).
Proof.
  intros Hd. split.
  - unfold build_select, Spec.statement. cbv zeta.
    apply String.eqb_neq in Hd. rewrite Hd.
    destruct (truthy (TableMetadata.schema_name table)), order as [[| k keys] |];
      cbn [andb]; cbv iota; rewrite ?append_empty_r, ?append_assoc; reflexivity.
  - intros ->. reflexivity.
Qed.

Lemma from_clause_is_qualified_name_witness :
  build_select Sample.users ["id"] None "mysql" false
  = Spec.statement "`id`" "dbo.users" None.
Proof.
  apply (proj1 (from_clause_is_qualified_name Sample.users ["id"] None "mysql" ltac:(discriminate))).
Defined.

(** ** Loading *)

Lemma map_result_Forall2 {A B : Type} (f : A -> result B) (l : list A) (l' : list B) :
  map_result f l = Ok l' -> Forall2 (fun a b => f a = Ok b) l l'.
Proof.
  revert l'. induction l as [| a l IH]; intros l'; cbn [map_result].
  - intros [= <-]. constructor.
  - destruct (f a) as [b | e] eqn:E; cbn [bind]; try discriminate.
    destruct (map_result f l) as [bs | e]; cbn [bind]; try discriminate.
    intros [= <-]. constructor; [exact E | by apply IH].
Qed.

Lemma loaded_columns_from_array (d : dict) (table : TableMetadata.t) (c : json)
    (cs : list json) :
  TableMetadata.from_dict (JObj d) = Ok table ->
  lookup_key d "columns" = Some (JArr (c :: cs)) ->
  map_result ColumnMetadata.from_dict (c :: cs) = Ok (TableMetadata.columns table).
Proof.
  intros H Hc. revert H. unfold TableMetadata.from_dict, get, has_key, get_default.
  rewrite Hc. cbn [truthy negb andb py_iter].
  destruct (negb (truthy _)); [discriminate |].
  cbn [bind py_iter].
  destruct (map_result ColumnMetadata.from_dict (c :: cs)) as [l | e];
    cbn [bind]; try discriminate.
  intros [= <-]. reflexivity.
Qed.

(** X13. A table loaded from a non-empty [columns] array has one column per
    entry, in the order of the entries, each column being what
    [ColumnMetadata.from_dict] makes of its entry: no entry is dropped,
    merged with another of the same name, or reordered. *)
Theorem loaded_columns_follow_entries (d : dict) (table : TableMetadata.t) (c : json)
    (cs : list json) :
  TableMetadata.from_dict (JObj d) = Ok table ->
  lookup_key d "columns" = Some (JArr (c :: cs)) ->
  Forall2 (fun entry column => ColumnMetadata.from_dict entry = Ok column)
          (c :: cs) (TableMetadata.columns table)
  /\ length (TableMetadata.column_names table) = length (c :: cs).
Proof.
  intros H Hc. pose proof (loaded_columns_from_array d table c cs H Hc) as Hm.
  apply map_result_Forall2 in Hm. split; [exact Hm |].
  unfold TableMetadata.column_names. rewrite length_map.
  symmetry. by eapply Forall2_length.
Qed.

Lemma loaded_columns_follow_entries_witness :
  length (TableMetadata.column_names
            (TableMetadata.mk "t" JNull [ColumnMetadata.named "id"; ColumnMetadata.named "id"]
                              JNull))
  = length [JObj [("name", JStr "id")]; JObj [("column_name", JStr " id")]].
Proof.
  apply (loaded_columns_follow_entries
           [("name", JStr "t");
            ("columns", JArr [JObj [("name", JStr "id")]; JObj [("column_name", JStr " id")]])]);
    reflexivity.
Defined.

(** X14. A document whose root is an array loads as the table named [table],
    with no schema and no explicit primary key, whose columns are the entries
    of the array; the first entry that [ColumnMetadata.from_dict] refuses
    makes the loading raise what it raises.  The empty array loads as a table
    without columns. *)
Theorem bare_array_loads_as_table (read_text : string -> file)
    (json_loads : string -> result json) (path text : string) (entries : list json) :
  read_text path = Text text ->
  json_loads text = Ok (JArr entries) ->
  TableMetadata.load read_text json_loads path
  = match map_result ColumnMetadata.from_dict entries with
    | Ok columns => Ok (TableMetadata.mk "table" JNull columns JNull)
    | Raise e => Raise e
    end.
Proof.
  intros Hr Hj. unfold TableMetadata.load. rewrite Hr, Hj.
  unfold TableMetadata.from_dict, get, has_key, get_default.
  cbn [lookup_key String.eqb Ascii.eqb Bool.eqb andb].
  destruct entries as [| c cs].
  - reflexivity.
  - cbn [py_or truthy nonempty_str negb andb bind py_iter].
    destruct (map_result ColumnMetadata.from_dict (c :: cs)); reflexivity.
Qed.

Lemma bare_array_loads_as_table_witness :
  TableMetadata.load Sample.on_disk (Sample.parsed_as (JArr [])) "columns.json"
  = Ok (TableMetadata.mk "table" JNull [] JNull).
Proof.
  apply (bare_array_loads_as_table Sample.on_disk (Sample.parsed_as (JArr []))
           "columns.json" "" []); reflexivity.
Defined.

(** X15. The name of a loaded table is the trimmed text of its name field: it
    has no whitespace at either end, and it is empty exactly when that text
    is whitespace only, in which case the document still loads. *)
Theorem loaded_table_name (d : dict) (table : TableMetadata.t) :
  TableMetadata.from_dict (JObj d) = Ok table ->
  exists v, Spec.first_true d Spec.table_aliases = Some v
            /\ TableMetadata.table_name table = strip (py_str v)
            /\ (forall c, first_char (TableMetadata.table_name table) = Some c
                          \/ last_char (TableMetadata.table_name table) = Some c ->
                          is_space c = false)
            /\ (TableMetadata.table_name table = "" <-> all_space (py_str v) = true).
Proof.
  intros H. apply table_from_dict_ok in H. destruct H as (v & Hv & _ & Hn).
  exists v. rewrite Hn. split; [exact Hv |]. split; [reflexivity |].
  split; [apply strip_borders | apply strip_empty].
Qed.

Lemma loaded_table_name_witness :
  exists v, Spec.first_true [("table", JStr "  "); ("columns", JArr [])] Spec.table_aliases
            = Some v
            /\ "" = strip (py_str v).
Proof.
  destruct (loaded_table_name [("table", JStr "  "); ("columns", JArr [])]
              (TableMetadata.mk "" JNull [] JNull) eq_refl) as (v & Hv & Hn & _).
  exists v. split; [exact Hv | exact Hn].
Defined.

(** ** The command line *)

Section MainFacts.

Variable read_text : string -> file.
Variable json_loads : string -> result json.
Variable write_text : string -> string -> option exn.
Variable print_out : string -> option exn.
Variable print_err : string -> option exn.

Local Notation "'load'" := (TableMetadata.load read_text json_loads).
Local Notation "'main'" :=
  (Cli.main read_text json_loads write_text print_out print_err).
Local Notation "'report_error'" := (Cli.report_error print_err).

Lemma report_error_cases (msg : string) :
  report_error msg = Ok (Cli.failed msg) \/ exists e, report_error msg = Raise e.
Proof. unfold Cli.report_error. destruct (print_err _); eauto. Qed.

Lemma on_load_error_cases (e : exn) :
  (exists msg, Cli.on_load_error print_err e
               = Ok (Cli.failed msg))
  \/ exists e', Cli.on_load_error print_err e = Raise e'.
Proof.
  destruct e; cbn; eauto;
    match goal with
    | |- context [Cli.report_error print_err ?m] =>
        destruct (report_error_cases m) as [-> | [e' ->]]; eauto
    end.
Qed.

Lemma main_outcomes (a : Cli.args) (r : Cli.run) :
  main a = Ok r ->
  (exists msg, r = Cli.failed msg)
  \/ exists source target source_sql target_sql,
       load (Cli.source_metadata a) = Ok source
       /\ load (Cli.target_metadata a) = Ok target
       /\ generate_comparison_selects source target
            (negb (Cli.no_intersection a)) (negb (Cli.no_order_by a))
            (Cli.dialect a) (Cli.quoted a) = Ok (source_sql, target_sql)
       /\ match Cli.output a with
          | Some path =>
              write_text path (Cli.report source target source_sql target_sql) = None
              /\ r = Cli.mk_run 0 "" ("Wrote comparison SQL to " +:+ path +:+ nl)
                       (Some (path, Cli.report source target source_sql target_sql))
          | None =>
              print_out (Cli.report source target source_sql target_sql) = None
              /\ r = Cli.mk_run 0 (Cli.report source target source_sql target_sql +:+ nl)
                       "" None
          end.
Proof.
  unfold Cli.main.
  destruct (load (Cli.source_metadata a)) as [source | e] eqn:Hs.
  2: { destruct (on_load_error_cases e) as [[msg ->] | [e' ->]];
         [| discriminate]. intros [= <-]. left. eauto. }
  destruct (load (Cli.target_metadata a)) as [target | e] eqn:Ht.
  2: { destruct (on_load_error_cases e) as [[msg ->] | [e' ->]];
         [| discriminate]. intros [= <-]. left. eauto. }
  destruct (generate_comparison_selects _ _ _ _ _ _) as [[x y] | e] eqn:G.
  - intros H. right. exists source, target, x, y.
    split; [reflexivity |]. split; [reflexivity |]. split; [exact G |].
    destruct (Cli.output a) as [path |].
    + destruct (write_text path _); [discriminate |].
      destruct (print_err _); [discriminate |]. by injection H as <-.
    + destruct (print_out _); [discriminate |]. by injection H as <-.
  - destruct (Cli.value_error_text e) as [msg |]; [| discriminate].
    destruct (report_error_cases msg) as [-> | [e' ->]]; [| discriminate].
    intros [= <-]. left. eauto.
Qed.

(** X16. A run that returns a non-zero code returns 1, has printed nothing on
    the output stream, has written no file, and has printed one line
    [Error: ...] on the error stream: no partial result is left behind. *)
Theorem failure_leaves_no_output (a : Cli.args) (r : Cli.run) :
  main a = Ok r ->
  Cli.exit_code r <> 0 ->
  Cli.exit_code r = 1
  /\ Cli.stdout r = ""
  /\ Cli.written r = None
  /\ exists msg, Cli.stderr r = "Error: " +:+ msg +:+ nl.
Proof.
  intros H Hc. apply main_outcomes in H.
  destruct H as [[msg ->] | (s & t & x & y & _ & _ & _ & H)].
  - cbn. repeat split. eauto.
  - destruct (Cli.output a); destruct H as [_ ->]; cbn in Hc; congruence.
Qed.

(** X17. A run returns 0 exactly when both files load, the generation
    succeeds and the report is delivered without an exception.  The report
    names each table by its [qualified_name] above its statement and goes to
    one place only: with an output path it is the text of that file and the
    output stream stays empty; without, it is printed on the output stream and
    no file is written.  The delivery is outside every handler: when
    [write_text], or [print] without an output path, raises, the exception
    leaves [main] and no code is returned. *)
Theorem success_delivers_report_once (a : Cli.args) :
  (forall r,
     main a = Ok r ->
     Cli.exit_code r = 0 ->
     exists source target source_sql target_sql,
       load (Cli.source_metadata a) = Ok source
       /\ load (Cli.target_metadata a) = Ok target
       /\ generate_comparison_selects source target
            (negb (Cli.no_intersection a)) (negb (Cli.no_order_by a))
            (Cli.dialect a) (Cli.quoted a) = Ok (source_sql, target_sql)
       /\ let text :=
            "-- Source table: " +:+ TableMetadata.qualified_name source +:+ nl
            +:+ source_sql +:+ nl +:+ nl
            +:+ "-- Target table: " +:+ TableMetadata.qualified_name target +:+ nl
            +:+ target_sql +:+ nl in
          match Cli.output a with
          | Some path =>
              write_text path text = None
              /\ Cli.written r = Some (path, text) /\ Cli.stdout r = ""
              /\ Cli.stderr r = "Wrote comparison SQL to " +:+ path +:+ nl
          | None =>
              print_out text = None
              /\ Cli.stdout r = text +:+ nl /\ Cli.written r = None /\ Cli.stderr r = ""
          end)
  /\ (forall source target source_sql target_sql,
        load (Cli.source_metadata a) = Ok source ->
        load (Cli.target_metadata a) = Ok target ->
        generate_comparison_selects source target
          (negb (Cli.no_intersection a)) (negb (Cli.no_order_by a))
          (Cli.dialect a) (Cli.quoted a) = Ok (source_sql, target_sql) ->
        let text := Cli.report source target source_sql target_sql in
        (match Cli.output a with
         | Some path =>
             write_text path text = None
             /\ print_err ("Wrote comparison SQL to " +:+ path) = None
         | None => print_out text = None
         end ->
         exists r, main a = Ok r /\ Cli.exit_code r = 0)
        /\ (forall e,
              match Cli.output a with
              | Some path => write_text path text = Some e
              | None => print_out text = Some e
              end ->
              main a = Raise e)).
Proof.
  split.
  - intros r H Hc. apply main_outcomes in H.
    destruct H as [[msg ->] | (s & t & x & y & Hs & Ht & Hg & H)]; [discriminate Hc |].
    exists s, t, x, y. split; [exact Hs |]. split; [exact Ht |]. split; [exact Hg |].
    cbv zeta. fold (Cli.report s t x y).
    destruct (Cli.output a); destruct H as [Hd ->]; cbn; repeat split; exact Hd.
  - intros s t x y Hs Ht Hg. cbv zeta. unfold Cli.main. rewrite Hs, Ht, Hg. split.
    + destruct (Cli.output a).
      * intros [-> ->]. eexists. split; reflexivity.
      * intros ->. eexists. split; reflexivity.
    + intros e. destruct (Cli.output a); intros ->; reflexivity.
Qed.

(** X18. When loading the source raises, the run ends there: the target
    file, the options and the output path play no part in what the run does. *)
Theorem source_error_ends_run (a a' : Cli.args) (e : exn) :
  load (Cli.source_metadata a) = Raise e ->
  Cli.source_metadata a' = Cli.source_metadata a ->
  main a' = main a.
Proof.
  intros H Hs. unfold Cli.main. rewrite Hs, H. reflexivity.
Qed.

(** X19. The handlers of [main] catch the not-found and malformed-input
    errors only.  A source document that is an array whose first entry is not
    an object makes [main] raise [AttributeError] instead of returning 1. *)
Theorem non_object_entry_escapes (a : Cli.args) (text : string) (x : json)
    (entries : list json) :
  read_text (Cli.source_metadata a) = Text text ->
  json_loads text = Ok (JArr (x :: entries)) ->
  (forall d, x <> JObj d) ->
  main a = Raise AttributeError.
Proof.
  intros Hr Hj Hx. unfold Cli.main, TableMetadata.load. rewrite Hr, Hj.
  unfold TableMetadata.from_dict, get, has_key, get_default.
  cbn [lookup_key String.eqb Ascii.eqb Bool.eqb andb].
  cbn [py_or truthy nonempty_str negb andb bind py_iter map_result].
  assert (Hc : ColumnMetadata.from_dict x = Raise AttributeError).
  { destruct x; try reflexivity. by destruct (Hx fields). }
  rewrite Hc. reflexivity.
Qed.

(** X20. A path that does not exist is reported by name: for the source at
    once, for the target once the source has loaded.  [main] prints the line
    [Error: Metadata file not found: <path>] on the error stream and returns
    1. *)
Theorem missing_file_is_named (a : Cli.args) :
  (read_text (Cli.source_metadata a) = Missing ->
   main a = report_error ("Metadata file not found: " +:+ Cli.source_metadata a))
  /\ (forall source,
        load (Cli.source_metadata a) = Ok source ->
        read_text (Cli.target_metadata a) = Missing ->
        main a = report_error ("Metadata file not found: " +:+ Cli.target_metadata a))
  /\ (forall msg,
        print_err ("Error: " +:+ msg) = None -> report_error msg = Ok (Cli.failed msg)).
Proof.
  split; [| split].
  - intros H. unfold Cli.main, TableMetadata.load. rewrite H. reflexivity.
  - intros source Hs H. unfold Cli.main. rewrite Hs.
    unfold TableMetadata.load at 1. rewrite H. reflexivity.
  - intros msg H. unfold Cli.report_error. rewrite H. reflexivity.
Qed.

End MainFacts.

Lemma failure_leaves_no_output_witness :
  exists msg,
    Cli.stderr (Cli.failed "Metadata file not found: absent.json")
    = "Error: " +:+ msg +:+ nl.
Proof.
  apply (failure_leaves_no_output SampleRun.disk SampleRun.parse
           SampleRun.write SampleRun.stream SampleRun.stream
           SampleRun.missing_source (Cli.failed "Metadata file not found: absent.json")).
  - reflexivity.
  - discriminate.
Defined.

Lemma success_delivers_report_once_witness :
  (exists r source target source_sql target_sql,
     Cli.main SampleRun.disk SampleRun.parse
       SampleRun.write SampleRun.stream SampleRun.stream SampleRun.to_file = Ok r
     /\ TableMetadata.load SampleRun.disk SampleRun.parse "users.json" = Ok source
     /\ TableMetadata.load SampleRun.disk SampleRun.parse "copy.json" = Ok target
     /\ Cli.written r
        = Some ("out.sql",
                "-- Source table: " +:+ TableMetadata.qualified_name source +:+ nl
                +:+ source_sql +:+ nl +:+ nl
                +:+ "-- Target table: " +:+ TableMetadata.qualified_name target +:+ nl
                +:+ target_sql +:+ nl)
     /\ Cli.stdout r = "")
  /\ (exists r,
        Cli.main SampleRun.disk SampleRun.parse
          SampleRun.write SampleRun.stream SampleRun.stream SampleRun.to_stdout = Ok r
        /\ Cli.exit_code r = 0)
  /\ Cli.main SampleRun.disk SampleRun.parse
       SampleRun.write SampleRun.stream SampleRun.stream SampleRun.to_missing_folder
     = Raise (FileNotFoundError "No such file or directory").
Proof.
  split; [| split].
  - destruct (proj1 (success_delivers_report_once SampleRun.disk SampleRun.parse SampleRun.write SampleRun.stream SampleRun.stream
                       SampleRun.to_file) _ eq_refl eq_refl)
      as (source & target & x & y & Hs & Ht & _ & _ & Hw & Ho & _).
    eexists _, source, target, x, y.
    split; [reflexivity |]. split; [exact Hs |]. split; [exact Ht |].
    split; [exact Hw | exact Ho].
  - exact (proj1 (proj2 (success_delivers_report_once SampleRun.disk SampleRun.parse SampleRun.write SampleRun.stream SampleRun.stream
                    SampleRun.to_stdout) _ _ _ _ eq_refl eq_refl eq_refl) eq_refl).
  - exact (proj2 (proj2 (success_delivers_report_once SampleRun.disk SampleRun.parse SampleRun.write SampleRun.stream SampleRun.stream
                    SampleRun.to_missing_folder) _ _ _ _ eq_refl eq_refl eq_refl)
             _ eq_refl).
Defined.

Lemma source_error_ends_run_witness :
  Cli.main SampleRun.disk SampleRun.parse
    SampleRun.write SampleRun.stream SampleRun.stream
    (Cli.mk_args "absent.json" "users.json" true true "mysql" true None)
  = Cli.main SampleRun.disk SampleRun.parse
      SampleRun.write SampleRun.stream SampleRun.stream SampleRun.missing_source.
Proof.
  apply (source_error_ends_run SampleRun.disk SampleRun.parse
           SampleRun.write SampleRun.stream SampleRun.stream
           SampleRun.missing_source _
           (FileNotFoundError "Metadata file not found: absent.json"));
    reflexivity.
Defined.

Lemma non_object_entry_escapes_witness :
  Cli.main SampleRun.disk SampleRun.parse
    SampleRun.write SampleRun.stream SampleRun.stream SampleRun.names_source
  = Raise AttributeError.
Proof.
  apply (non_object_entry_escapes SampleRun.disk SampleRun.parse
           SampleRun.write SampleRun.stream SampleRun.stream
           SampleRun.names_source "names" (JStr "id") []);
    [reflexivity | reflexivity | discriminate].
Defined.

Lemma missing_file_is_named_witness :
  Cli.main SampleRun.disk SampleRun.parse
    SampleRun.write SampleRun.stream SampleRun.stream SampleRun.missing_source
  = Ok (Cli.failed "Metadata file not found: absent.json").
Proof.
  rewrite (proj1 (missing_file_is_named SampleRun.disk SampleRun.parse
                    SampleRun.write SampleRun.stream SampleRun.stream
                    SampleRun.missing_source) eq_refl).
  apply (proj2 (proj2 (missing_file_is_named SampleRun.disk SampleRun.parse SampleRun.write SampleRun.stream
                         SampleRun.stream SampleRun.missing_source))).
  reflexivity.
Defined.
